(** * Discourse topic/category fetcher: a shallow embedding of [script.py]

    The script is a sequential fetch / filter / enrich / export pipeline.
    Python values are embedded as an inductive type, exceptions as an error
    monad, the HTTP endpoints as a record of response functions, and the
    unbounded [while True] pagination loop as a fuelled fixpoint. *)

From Stdlib Require Import List String Ascii ZArith Bool Lia Permutation.
Import ListNotations.
Open Scope string_scope.
Open Scope Z_scope.
Open Scope list_scope.
Set Warnings "-register-all".

(** ** Exceptions and the error monad *)

Inductive exn : Type :=
| KeyError
| TypeError
| ValueError
| AttributeError
| JSONDecodeError.

Inductive result (A : Type) : Type :=
| Ok (a : A)
| Raise (e : exn).
Arguments Ok {A} a.
Arguments Raise {A} e.

Definition bind {A B} (m : result A) (f : A -> result B) : result B :=
  match m with
  | Ok a => f a
  | Raise e => Raise e
  end.

Notation "x <- m ;; k" := (bind m (fun x => k))
  (at level 61, m at next level, right associativity).

(** ** Timestamps

    [datetime] is Python's naive [datetime.datetime]; ordering is the
    lexicographic order on (year, month, day, hour, minute, second,
    microsecond), which is how CPython compares two naive datetimes. *)

Record datetime : Type := mkdt {
  year : Z; month : Z; day : Z;
  hour : Z; minute : Z; second : Z; microsecond : Z
}.

Definition dt_fields (d : datetime) : list Z :=
  [year d; month d; day d; hour d; minute d; second d; microsecond d].

Fixpoint lex_ltb (a b : list Z) : bool :=
  match a, b with
  | x :: a', y :: b' => (x <? y) || ((x =? y) && lex_ltb a' b')
  | _, _ => false
  end.

Fixpoint lex_leb (a b : list Z) : bool :=
  match a, b with
  | x :: a', y :: b' => (x <? y) || ((x =? y) && lex_leb a' b')
  | [], [] => true
  | _, _ => false
  end.

(** [a < b] and [a > b] on datetimes. *)
Definition dt_ltb (a b : datetime) : bool := lex_ltb (dt_fields a) (dt_fields b).
Definition dt_gtb (a b : datetime) : bool := dt_ltb b a.
(** [a <= b], used only in statements. *)
Definition dt_leb (a b : datetime) : bool := lex_leb (dt_fields a) (dt_fields b).

(** ** Python values

    What [response.json()] can deliver (numbers are taken as integers), plus
    the [datetime] objects the script itself stores in a topic record.
    JSON objects have string keys and keep insertion order. *)

Inductive value : Type :=
| VNone
| VBool (b : bool)
| VInt (z : Z)
| VStr (s : string)
| VList (l : list value)
| VDict (d : list (string * value))
| VDatetime (t : datetime).

(** A string-keyed dict: JSON objects and the topic records. *)
Definition sdict : Type := list (string * value).

(** Python truthiness, as used by [if x], [not x] and [a and b]. *)
Definition truthy (v : value) : bool :=
  match v with
  | VNone => false
  | VBool b => b
  | VInt z => negb (z =? 0)
  | VStr s => negb (String.eqb s "")
  | VList l => match l with [] => false | _ => true end
  | VDict d => match d with [] => false | _ => true end
  | VDatetime _ => true
  end.

Fixpoint dict_lookup (k : string) (d : sdict) : option value :=
  match d with
  | [] => None
  | (k', v) :: rest => if String.eqb k k' then Some v else dict_lookup k rest
  end.

(** [d[k]]: raises [KeyError] when the key is absent. *)
Definition dict_index (d : sdict) (k : string) : result value :=
  match dict_lookup k d with
  | Some v => Ok v
  | None => Raise KeyError
  end.

(** [d.get(k, default)]. *)
Definition dict_get (d : sdict) (k : string) (default : value) : value :=
  match dict_lookup k d with
  | Some v => v
  | None => default
  end.

(** [k in d]. *)
Definition dict_contains (k : string) (d : sdict) : bool :=
  match dict_lookup k d with
  | Some _ => true
  | None => false
  end.

(** [d[k] = v]: an existing key keeps its position, a new key goes last. *)
Fixpoint dict_set (k : string) (v : value) (d : sdict) : sdict :=
  match d with
  | [] => [(k, v)]
  | (k', v') :: rest =>
      if String.eqb k k' then (k', v) :: rest else (k', v') :: dict_set k v rest
  end.

(** [d.update(other)]: assigns every item of [other], in order. *)
Definition dict_update (d other : sdict) : sdict :=
  fold_left (fun acc kv => dict_set (fst kv) (snd kv) acc) other d.

Definition dict_keys (d : sdict) : list string := map fst d.

(** [v[k]] for a string key [k] on an arbitrary value: only a dict can be
    subscripted by a string. *)
Definition subscript (v : value) (k : string) : result value :=
  match v with
  | VDict d => dict_index d k
  | _ => Raise TypeError
  end.

(** [v.get(k, default)] on an arbitrary value: only a dict has [get]. *)
Definition value_get (v : value) (k : string) (default : value) : result value :=
  match v with
  | VDict d => Ok (dict_get d k default)
  | _ => Raise AttributeError
  end.

(** The items a [for] loop (or a comprehension) draws from a value: the
    elements of a list, the one-character strings of a string, the keys of a
    dict; anything else is not iterable. *)
Fixpoint chars_of (s : string) : list value :=
  match s with
  | EmptyString => []
  | String c rest => VStr (String c EmptyString) :: chars_of rest
  end.

Definition iterate (v : value) : result (list value) :=
  match v with
  | VList l => Ok l
  | VStr s => Ok (chars_of s)
  | VDict d => Ok (map (fun kv => VStr (fst kv)) d)
  | _ => Raise TypeError
  end.

(** ** Strings: [str.lower] and the [in] substring test (ASCII) *)

Definition lower_ascii (c : ascii) : ascii :=
  let n := nat_of_ascii c in
  if (Nat.leb 65 n && Nat.leb n 90)%bool then ascii_of_nat (n + 32) else c.

Fixpoint lower (s : string) : string :=
  match s with
  | EmptyString => EmptyString
  | String c rest => String (lower_ascii c) (lower rest)
  end.

Fixpoint is_prefix (p s : string) : bool :=
  match p, s with
  | EmptyString, _ => true
  | String a p', String b s' => Ascii.eqb a b && is_prefix p' s'
  | String _ _, EmptyString => false
  end.

(** [sub in s]. *)
Fixpoint str_contains (sub s : string) : bool :=
  is_prefix sub s ||
  match s with
  | EmptyString => false
  | String _ s' => str_contains sub s'
  end.

(** ** [datetime.strptime]

    The two formats the script uses.  CPython turns a format into a regular
    expression, matched case-insensitively and required to consume the whole
    input: [%Y] is four digits, [%m] [1[0-2]|0[1-9]|[1-9]],
    [%d] [3[01]|[12]\d|0[1-9]|[1-9]| [1-9]], [%H] [2[0-3]|[0-1]\d|\d],
    [%M] [[0-5]\d|\d], [%S] [6[0-1]|[0-5]\d|\d] and [%f] one to six
    digits, right-padded with zeros.  Every field is followed by a literal
    separator (or the end of the input), so a field is the text up to that
    separator.  The parsed numbers must then form a real date and time. *)

Definition digit_of (c : ascii) : option Z :=
  let n := nat_of_ascii c in
  if (Nat.leb 48 n && Nat.leb n 57)%bool then Some (Z.of_nat n - 48) else None.

(** The decimal value of a string made of digits only. *)
Fixpoint digits_from (acc : Z) (s : string) : option Z :=
  match s with
  | EmptyString => Some acc
  | String c rest =>
      match digit_of c with
      | Some d => digits_from (10 * acc + d) rest
      | None => None
      end
  end.

Definition digits (s : string) : option Z :=
  match s with
  | EmptyString => None
  | _ => digits_from 0 s
  end.

Definition in_range (lo hi : Z) (o : option Z) : option Z :=
  match o with
  | Some v => if (lo <=? v) && (v <=? hi) then Some v else None
  | None => None
  end.

(** One or two digits whose value lies in [lo..hi]: the shape of the
    alternatives of [%m], [%d], [%H], [%M] and [%S] (where [lo] is 1, the
    alternatives exclude ["0"] and ["00"]). *)
Definition short_field (lo hi : Z) (f : string) : option Z :=
  if Nat.leb (String.length f) 2 then in_range lo hi (digits f) else None.

Definition field_Y (f : string) : option Z :=
  if Nat.eqb (String.length f) 4 then digits f else None.

Definition field_m : string -> option Z := short_field 1 12.

Definition field_d (f : string) : option Z :=
  match f with
  | String " " (String c EmptyString) => in_range 1 9 (digit_of c)
  | _ => short_field 1 31 f
  end.

Definition field_H : string -> option Z := short_field 0 23.
Definition field_M : string -> option Z := short_field 0 59.
Definition field_S : string -> option Z := short_field 0 61.

Fixpoint pad_zeros (n : nat) (v : Z) : Z :=
  match n with
  | O => v
  | S n' => pad_zeros n' (10 * v)
  end.

Definition field_f (f : string) : option Z :=
  if Nat.leb (String.length f) 6 then
    match digits f with
    | Some v => Some (pad_zeros (6 - String.length f) v)
    | None => None
    end
  else None.

(** The text before the first character accepted by [stop], and the text
    after that character. *)
Fixpoint take_until (stop : ascii -> bool) (s : string) : option (string * string) :=
  match s with
  | EmptyString => None
  | String c rest =>
      if stop c then Some (EmptyString, rest)
      else match take_until stop rest with
           | Some (f, r) => Some (String c f, r)
           | None => None
           end
  end.

Definition is_char (a : ascii) : ascii -> bool := fun c => Ascii.eqb (lower_ascii c) (lower_ascii a).

Definition is_leap (y : Z) : bool :=
  (y mod 4 =? 0) && (negb (y mod 100 =? 0) || (y mod 400 =? 0)).

Definition days_in_month (y m : Z) : Z :=
  if m =? 2 then (if is_leap y then 29 else 28)
  else if (m =? 4) || (m =? 6) || (m =? 9) || (m =? 11) then 30
  else 31.

(** The constructor check of [datetime]: year 1..9999, a day of the month,
    seconds below 60. *)
Definition make_datetime (y m d H M S f : Z) : option datetime :=
  if (1 <=? y) && (1 <=? d) && (d <=? days_in_month y m) && (S <=? 59)
  then Some (mkdt y m d H M S f) else None.

Definition obind {A B} (o : option A) (f : A -> option B) : option B :=
  match o with
  | Some a => f a
  | None => None
  end.

Notation "x <-? o ;; k" := (obind o (fun x => k))
  (at level 61, o at next level, right associativity).

(** [datetime.strptime(s, "%Y-%m-%dT%H:%M:%S.%fZ")]; [None] is [ValueError]. *)
Definition strptime_wire (s : string) : option datetime :=
  p1 <-? take_until (is_char "-") s ;;
  p2 <-? take_until (is_char "-") (snd p1) ;;
  p3 <-? take_until (is_char "T") (snd p2) ;;
  p4 <-? take_until (is_char ":") (snd p3) ;;
  p5 <-? take_until (is_char ":") (snd p4) ;;
  p6 <-? take_until (is_char ".") (snd p5) ;;
  p7 <-? take_until (is_char "Z") (snd p6) ;;
  match snd p7 with
  | EmptyString =>
      y <-? field_Y (fst p1) ;;
      m <-? field_m (fst p2) ;;
      d <-? field_d (fst p3) ;;
      H <-? field_H (fst p4) ;;
      M <-? field_M (fst p5) ;;
      S <-? field_S (fst p6) ;;
      f <-? field_f (fst p7) ;;
      make_datetime y m d H M S f
  | _ => None
  end.

(** [datetime.strptime(s, "%Y-%m-%d")]: midnight of that day. *)
Definition strptime_date (s : string) : option datetime :=
  p1 <-? take_until (is_char "-") s ;;
  p2 <-? take_until (is_char "-") (snd p1) ;;
  y <-? field_Y (fst p1) ;;
  m <-? field_m (fst p2) ;;
  d <-? field_d (snd p2) ;;
  make_datetime y m d 0 0 0 0.

(** ** Configuration and the HTTP boundary *)

(** The module-level feature flags. *)
Record flags : Type := mkflags {
  FETCH_USER_DETAILS : bool;
  FETCH_TOPIC_DESCRIPTION : bool;
  FETCH_LAST_POSTED_AT : bool
}.

(** What the script reads of a [requests] response: the status code and
    what [response.json()] returns or raises. *)
Record response : Type := mkresponse {
  status_code : Z;
  json : result value
}.

(** The forum, seen through the three GET endpoints: [/categories.json],
    [/latest.json] with its [page] and [per_page] parameters, and
    [/users/<id>.json]. *)
Record server : Type := mkserver {
  get_categories : response;
  get_latest : nat -> Z -> response;
  get_user : value -> response
}.

(** ** [list_all_categories]

    The category dict is keyed by whatever the [id] fields hold; keys are
    compared with Python's [==], under which [True == 1] and [False == 0],
    and lists and dicts cannot be keys. *)

Definition kdict (V : Type) : Type := list (value * V).

Definition hashable (v : value) : bool :=
  match v with
  | VList _ | VDict _ => false
  | _ => true
  end.

Definition dt_eqb (a b : datetime) : bool :=
  (year a =? year b) && (month a =? month b) && (day a =? day b) &&
  (hour a =? hour b) && (minute a =? minute b) && (second a =? second b) &&
  (microsecond a =? microsecond b).

Definition key_eqb (a b : value) : bool :=
  match a, b with
  | VNone, VNone => true
  | VBool x, VBool y => Bool.eqb x y
  | VInt x, VInt y => x =? y
  | VBool x, VInt y | VInt y, VBool x => (if x then 1 else 0) =? y
  | VStr x, VStr y => String.eqb x y
  | VDatetime x, VDatetime y => dt_eqb x y
  | _, _ => false
  end.

Fixpoint kdict_lookup {V} (k : value) (d : kdict V) : option V :=
  match d with
  | [] => None
  | (k', v) :: rest => if key_eqb k k' then Some v else kdict_lookup k rest
  end.

Fixpoint kdict_set {V} (k : value) (v : V) (d : kdict V) : kdict V :=
  match d with
  | [] => [(k, v)]
  | (k', v') :: rest =>
      if key_eqb k k' then (k', v) :: rest else (k', v') :: kdict_set k v rest
  end.

Definition cdict : Type := kdict value.

(** [{category['id']: category['name'] for category in categories}]. *)
Fixpoint category_comprehension (categories : list value) (acc : cdict) : result cdict :=
  match categories with
  | [] => Ok acc
  | category :: rest =>
      id <- subscript category "id" ;;
      name <- subscript category "name" ;;
      if hashable id then category_comprehension rest (kdict_set id name acc)
      else Raise TypeError
  end.

Definition list_all_categories (w : server) : result cdict :=
  let response := get_categories w in
  if status_code response =? 200 then
    body <- json response ;;
    category_list <- subscript body "category_list" ;;
    categories <- subscript category_list "categories" ;;
    items <- iterate categories ;;
    category_comprehension items []
  else Ok [].

(** ** [fetch_user_details] *)

Definition fetch_user_details (w : server) (user_id : value) : result sdict :=
  let response := get_user w user_id in
  if status_code response =? 200 then
    body <- json response ;;
    user_data <- subscript body "user" ;;
    username <- subscript user_data "username" ;;
    created_at <- subscript user_data "created_at" ;;
    post_count <- subscript user_data "post_count" ;;
    Ok [("username", username); ("created_at", created_at); ("post_count", post_count)]
  else Ok [].

(** ** [fetch_all_topics] *)

Section Fetch.

Variable fl : flags.
Variable w : server.
Variables start_date end_date : option datetime.
Variable keyword : option string.
Variable page_size : Z.

(** [datetime.strptime(v, "%Y-%m-%dT%H:%M:%S.%fZ")] on a value. *)
Definition parse_created_at (v : value) : result datetime :=
  match v with
  | VStr s =>
      match strptime_wire s with
      | Some d => Ok d
      | None => Raise ValueError
      end
  | _ => Raise TypeError
  end.

(** [start_date and topic_created_at < start_date]. *)
Definition before_start (t : datetime) : bool :=
  match start_date with
  | Some s => dt_ltb t s
  | None => false
  end.

(** [end_date and topic_created_at > end_date]. *)
Definition after_end (t : datetime) : bool :=
  match end_date with
  | Some e => dt_gtb t e
  | None => false
  end.

(** [keyword and keyword.lower() not in topic["title"].lower()]. *)
Definition keyword_misses (topic : sdict) : result bool :=
  match keyword with
  | None => Ok false
  | Some k =>
      if String.eqb k "" then Ok false
      else
        title <- dict_index topic "title" ;;
        match title with
        | VStr t => Ok (negb (str_contains (lower k) (lower t)))
        | _ => Raise AttributeError
        end
  end.

(** The dict literal of lines 130-138. *)
Definition base_record (topic : sdict) (topic_created_at : datetime) : result sdict :=
  id <- dict_index topic "id" ;;
  title <- dict_index topic "title" ;;
  posts_count <- dict_index topic "posts_count" ;;
  Ok [("id", id);
      ("title", title);
      ("category_id", dict_get topic "category_id" (VStr "Unknown"));
      ("created_at", VDatetime topic_created_at);
      ("posts_count", posts_count);
      ("views_count", dict_get topic "views_count" (VInt 0));
      ("user", dict_get topic "last_poster_username" (VStr "Unknown"))].

(** Lines 141-143: the user-detail merge. *)
Definition merge_user_details (topic topic_details : sdict) : result sdict :=
  if FETCH_USER_DETAILS fl && truthy (dict_get topic "last_poster_user_id" VNone) then
    user_id <- dict_index topic "last_poster_user_id" ;;
    user_details <- fetch_user_details w user_id ;;
    Ok (dict_update topic_details user_details)
  else Ok topic_details.

(** Lines 145-149: the two fields copied from the listing. *)
Definition copy_optional (flag : bool) (k : string) (topic topic_details : sdict) : sdict :=
  if flag && dict_contains k topic then
    match dict_lookup k topic with
    | Some v => dict_set k v topic_details
    | None => topic_details
    end
  else topic_details.

(** The body of the [for] loop; [None] is a [continue]. *)
Definition process_topic (topic : value) : result (option sdict) :=
  match topic with
  | VDict t =>
      created <- dict_index t "created_at" ;;
      topic_created_at <- parse_created_at created ;;
      if before_start topic_created_at then Ok None
      else if after_end topic_created_at then Ok None
      else
        miss <- keyword_misses t ;;
        if miss then Ok None
        else
          topic_details <- base_record t topic_created_at ;;
          topic_details <- merge_user_details t topic_details ;;
          let topic_details :=
            copy_optional (FETCH_TOPIC_DESCRIPTION fl) "description" t topic_details in
          let topic_details :=
            copy_optional (FETCH_LAST_POSTED_AT fl) "last_posted_at" t topic_details in
          Ok (Some topic_details)
  | _ => Raise TypeError
  end.

(** [for topic in topic_list: ...; topics.append(topic_details)]. *)
Fixpoint process_page (topic_list : list value) (topics : list sdict)
  : result (list sdict) :=
  match topic_list with
  | [] => Ok topics
  | topic :: rest =>
      r <- process_topic topic ;;
      match r with
      | Some topic_details => process_page rest (topics ++ [topic_details])
      | None => process_page rest topics
      end
  end.

(** [data.get("topic_list", {}).get("topics", [])]. *)
Definition topic_list_of (data : value) : result value :=
  tl <- value_get data "topic_list" (VDict []) ;;
  value_get tl "topics" (VList []).

(** The [while True] loop, from page [page] with [topics] collected so far.
    [None] means the fuel ran out before the loop ended. *)
Fixpoint fetch_loop (fuel : nat) (page : nat) (topics : list sdict)
  : option (result (list sdict)) :=
  match fuel with
  | O => None
  | S fuel' =>
      let response := get_latest w page page_size in
      if negb (status_code response =? 200) then Some (Ok topics)
      else
        match (data <- json response ;; topic_list_of data) with
        | Raise e => Some (Raise e)
        | Ok topic_list =>
            if negb (truthy topic_list) then Some (Ok topics)
            else
              match (items <- iterate topic_list ;; process_page items topics) with
              | Raise e => Some (Raise e)
              | Ok topics' => fetch_loop fuel' (S page) topics'
              end
        end
  end.

Definition fetch_all_topics (fuel : nat) : option (result (list sdict)) :=
  fetch_loop fuel 0%nat [].

End Fetch.

(** ** [save_topics_and_categories]

    The three files are kept as the sequence of things written to them; how
    a value is rendered as text ([str], the CSV quoting, the JSON layout) is
    not interpreted. *)

Inductive text_write : Type :=
| CategoriesHeading
| CategoryLine (category_id category_name : value)
| TopicsHeading
| TopicLine (id title category_name posts_count views_count user created_at : value)
| DescriptionLine (description : value)
| LastPostedLine (last_posted_at : value)
| UserDetailsLine (username registered_at post_count : value)
| BlankLine
| GroupedHeading
| GroupCategoryLine (category_name : value)
| GroupIdsLine (topic_ids : list value)
| GroupTotalLine (total : Z).

Record csv_row : Type := mkrow {
  row_topic_id : value;
  row_title : value;
  row_category : value;
  row_post_count : value;
  row_views : value;
  row_user : value;
  row_created_at : value;
  row_description : value;
  row_last_posted_at : value;
  row_user_details : value * value * value
}.

Inductive csv_write : Type :=
| CsvHeader
| CsvRow (r : csv_row).

(** The output files that exist after a call, with what was written. *)
Record files : Type := mkfiles {
  OUTPUT_FILE : option (list text_write);
  CSV_FILE : option (list csv_write);
  JSON_FILE : option (list sdict)
}.

Definition no_files : files := mkfiles None None None.

(** [categories.get(topic["category_id"], "Unknown Category")]. *)
Definition category_name_of (categories : cdict) (topic : sdict) : result value :=
  category_id <- dict_index topic "category_id" ;;
  if hashable category_id then
    Ok (match kdict_lookup category_id categories with
        | Some name => name
        | None => VStr "Unknown Category"
        end)
  else Raise TypeError.

(** [{category: 0 for category in categories.values()}]. *)
Fixpoint initial_count (categories : cdict) (acc : kdict Z) : result (kdict Z) :=
  match categories with
  | [] => Ok acc
  | (_, category) :: rest =>
      if hashable category then initial_count rest (kdict_set category 0 acc)
      else Raise TypeError
  end.

(** Lines 171-176: the grouping loop. *)
Fixpoint group_topics (categories : cdict) (topics : list sdict)
    (grouped_topics : kdict (list value)) (category_count : kdict Z)
  : result (kdict (list value) * kdict Z) :=
  match topics with
  | [] => Ok (grouped_topics, category_count)
  | topic :: rest =>
      category_name <- category_name_of categories topic ;;
      if hashable category_name then
        let grouped_topics :=
          match kdict_lookup category_name grouped_topics with
          | Some _ => grouped_topics
          | None => kdict_set category_name [] grouped_topics
          end in
        id <- dict_index topic "id" ;;
        let ids := match kdict_lookup category_name grouped_topics with
                   | Some ids => ids
                   | None => []
                   end in
        let grouped_topics := kdict_set category_name (ids ++ [id]) grouped_topics in
        match kdict_lookup category_name category_count with
        | Some n =>
            group_topics categories rest grouped_topics
              (kdict_set category_name (n + 1) category_count)
        | None => Raise KeyError
        end
      else Raise TypeError
  end.

Definition na : value := VStr "N/A".

Section Exporter.

Variable fl : flags.
Variable categories : cdict.

(** Line 187, one f-string. *)
Definition topic_line (topic : sdict) : result text_write :=
  category_name <- category_name_of categories topic ;;
  id <- dict_index topic "id" ;;
  title <- dict_index topic "title" ;;
  posts_count <- dict_index topic "posts_count" ;;
  views_count <- dict_index topic "views_count" ;;
  user <- dict_index topic "user" ;;
  created_at <- dict_index topic "created_at" ;;
  Ok (TopicLine id title category_name posts_count views_count user created_at).

(** Lines 188-194. *)
Definition topic_extras (topic : sdict) : list text_write :=
  (match dict_lookup "description" topic with
   | Some v => [DescriptionLine v]
   | None => []
   end) ++
  (match dict_lookup "last_posted_at" topic with
   | Some v => [LastPostedLine v]
   | None => []
   end) ++
  (if FETCH_USER_DETAILS fl then
     [UserDetailsLine (dict_get topic "username" na)
                      (dict_get topic "created_at" na)
                      (dict_get topic "post_count" na)]
   else []) ++
  [BlankLine].

(** The topic blocks; on an exception the writes made so far remain. *)
Fixpoint write_topic_blocks (topics : list sdict) (out : list text_write)
  : list text_write * result unit :=
  match topics with
  | [] => (out, Ok tt)
  | topic :: rest =>
      match topic_line topic with
      | Ok line => write_topic_blocks rest (out ++ line :: topic_extras topic)
      | Raise e => (out, Raise e)
      end
  end.

Fixpoint write_groups (grouped_topics : kdict (list value)) (category_count : kdict Z)
    (out : list text_write) : list text_write * result unit :=
  match grouped_topics with
  | [] => (out, Ok tt)
  | (category_name, topic_ids) :: rest =>
      match kdict_lookup category_name category_count with
      | Some n =>
          write_groups rest category_count
            (out ++ [GroupCategoryLine category_name; GroupIdsLine topic_ids;
                     GroupTotalLine n; BlankLine])
      | None =>
          (out ++ [GroupCategoryLine category_name; GroupIdsLine topic_ids],
           Raise KeyError)
      end
  end.

(** Lines 179-200. *)
Definition write_text (topics : list sdict) (grouped_topics : kdict (list value))
    (category_count : kdict Z) : list text_write * result unit :=
  let out := CategoriesHeading ::
             map (fun kv => CategoryLine (fst kv) (snd kv)) categories ++
             [BlankLine; TopicsHeading] in
  match write_topic_blocks topics out with
  | (out, Ok _) => write_groups grouped_topics category_count (out ++ [BlankLine; GroupedHeading])
  | (out, Raise e) => (out, Raise e)
  end.

(** Lines 212-223. *)
Definition csv_row_of (topic : sdict) : result csv_row :=
  category_name <- category_name_of categories topic ;;
  id <- dict_index topic "id" ;;
  title <- dict_index topic "title" ;;
  posts_count <- dict_index topic "posts_count" ;;
  views_count <- dict_index topic "views_count" ;;
  user <- dict_index topic "user" ;;
  created_at <- dict_index topic "created_at" ;;
  Ok (mkrow id title category_name posts_count views_count user created_at
            (dict_get topic "description" na)
            (dict_get topic "last_posted_at" na)
            (dict_get topic "username" na,
             dict_get topic "created_at" na,
             dict_get topic "post_count" na)).

Fixpoint write_csv_rows (topics : list sdict) (out : list csv_write)
  : list csv_write * result unit :=
  match topics with
  | [] => (out, Ok tt)
  | topic :: rest =>
      match csv_row_of topic with
      | Ok r => write_csv_rows rest (out ++ [CsvRow r])
      | Raise e => (out, Raise e)
      end
  end.

(** The whole exporter: the files left behind and how the call ended. *)
Definition save_topics_and_categories (topics : list sdict) : files * result unit :=
  match (count <- initial_count categories [] ;;
         group_topics categories topics [] count) with
  | Raise e => (no_files, Raise e)
  | Ok (grouped_topics, category_count) =>
      match write_text topics grouped_topics category_count with
      | (txt, Raise e) => (mkfiles (Some txt) None None, Raise e)
      | (txt, Ok _) =>
          match write_csv_rows topics [CsvHeader] with
          | (csv, Raise e) => (mkfiles (Some txt) (Some csv) None, Raise e)
          | (csv, Ok _) => (mkfiles (Some txt) (Some csv) (Some topics), Ok tt)
          end
      end
  end.

End Exporter.

(** ** Module-level configuration and the entry point *)

Record environ : Type := mkenv {
  START_DATE : option string;
  END_DATE : option string;
  KEYWORD : option string;
  env_FETCH_USER_DETAILS : option string;
  env_FETCH_TOPIC_DESCRIPTION : option string;
  env_FETCH_LAST_POSTED_AT : option string
}.

(** [os.getenv(name, "False") == "True"]. *)
Definition flag_of (v : option string) : bool :=
  match v with
  | Some s => String.eqb s "True"
  | None => false
  end.

Definition flags_of (env : environ) : flags :=
  mkflags (flag_of (env_FETCH_USER_DETAILS env))
          (flag_of (env_FETCH_TOPIC_DESCRIPTION env))
          (flag_of (env_FETCH_LAST_POSTED_AT env)).

(** [datetime.strptime(D, "%Y-%m-%d") if D else None]. *)
Definition date_of (v : option string) : result (option datetime) :=
  match v with
  | None => Ok None
  | Some s =>
      if String.eqb s "" then Ok None
      else match strptime_date s with
           | Some d => Ok (Some d)
           | None => Raise ValueError
           end
  end.

Inductive run_outcome : Type :=
| Exported (f : files)
| ReportedFailure
| Crashed (f : files) (e : exn).

(** The script run from the command line, against the server [w].  [None]
    means the pagination loop did not end within the fuel. *)
Definition main (env : environ) (w : server) (fuel : nat) : option run_outcome :=
  match (s <- date_of (START_DATE env) ;; e <- date_of (END_DATE env) ;; Ok (s, e)) with
  | Raise e => Some (Crashed no_files e)
  | Ok (start_date, end_date) =>
      match list_all_categories w with
      | Raise e => Some (Crashed no_files e)
      | Ok categories =>
          match fetch_all_topics (flags_of env) w start_date end_date (KEYWORD env) 30 fuel with
          | None => None
          | Some (Raise e) => Some (Crashed no_files e)
          | Some (Ok topics) =>
              match topics, categories with
              | _ :: _, _ :: _ =>
                  match save_topics_and_categories (flags_of env) categories topics with
                  | (f, Ok _) => Some (Exported f)
                  | (f, Raise e) => Some (Crashed f e)
                  end
              | _, _ => Some ReportedFailure
              end
          end
      end
  end.

(** ** Vocabulary of the statements *)

(** The listing request for page [p] succeeds and its body carries the
    topic list [items]. *)
Definition page_delivers (w : server) (page_size : Z) (p : nat) (items : list value) : Prop :=
  status_code (get_latest w p page_size) = 200 /\
  exists data, json (get_latest w p page_size) = Ok data /\
               topic_list_of data = Ok (VList items).

(** The listing request for page [p] succeeds with an empty (falsy) topic list. *)
Definition page_empty (w : server) (page_size : Z) (p : nat) : Prop :=
  status_code (get_latest w p page_size) = 200 /\
  exists data topic_list, json (get_latest w p page_size) = Ok data /\
                          topic_list_of data = Ok topic_list /\
                          truthy topic_list = false.

(** The listing request for page [p] returns a non-success status. *)
Definition page_fails (w : server) (page_size : Z) (p : nat) : Prop :=
  status_code (get_latest w p page_size) <> 200.

(** The records of pages [p], [p+1], ..., [p+n-1], in page order. *)
Definition records_of_pages (recs : nat -> list sdict) (p n : nat) : list sdict :=
  List.concat (map recs (seq p n)).

(** The records among the per-topic results of a page. *)
Fixpoint kept (rs : list (option sdict)) : list sdict :=
  match rs with
  | [] => []
  | Some r :: rest => r :: kept rest
  | None :: rest => kept rest
  end.

(** Pages [p], ..., [p+n-1] each deliver a non-empty topic list [items i]
    whose processing goes through and selects the records [recs i]. *)
Definition pages_go_through (fl : flags) (w : server)
    (start_date end_date : option datetime) (keyword : option string) (page_size : Z)
    (items : nat -> list value) (recs : nat -> list sdict) (p n : nat) : Prop :=
  forall i, (p <= i < p + n)%nat ->
    page_delivers w page_size i (items i) /\
    items i <> [] /\
    process_page fl w start_date end_date keyword (items i) [] = Ok (recs i).

(** Topic [t] is one of the topics the loop draws from listing page [p]. *)
Definition on_page (w : server) (page_size : Z) (p : nat) (t : value) : Prop :=
  status_code (get_latest w p page_size) = 200 /\
  exists data topic_list items,
    json (get_latest w p page_size) = Ok data /\
    topic_list_of data = Ok topic_list /\
    iterate topic_list = Ok items /\
    In t items.

(** The seven keys of the base record, in the order of the dict literal. *)
Definition base_keys : list string :=
  ["id"; "title"; "category_id"; "created_at"; "posts_count"; "views_count"; "user"].

(** ** Sample forums

    Small servers and environments on which the statements below are run. *)

Module Sample.

Definition fields (id : Z) (title created : string) (category : Z) : sdict :=
  [("id", VInt id);
   ("title", VStr title);
   ("category_id", VInt category);
   ("created_at", VStr created);
   ("posts_count", VInt 3);
   ("views_count", VInt 10);
   ("last_poster_username", VStr "alice");
   ("last_poster_user_id", VInt 7);
   ("description", VStr "An excerpt");
   ("last_posted_at", VStr "2024-02-01T00:00:00.000Z")].

Definition topic (id : Z) (title created : string) (category : Z) : value :=
  VDict (fields id title created category).

Definition listing (topics : list value) : response :=
  mkresponse 200 (Ok (VDict [("topic_list", VDict [("topics", VList topics)])])).

Definition failure (status : Z) : response :=
  mkresponse status (Raise JSONDecodeError).

Definition categories_ok : response :=
  mkresponse 200
    (Ok (VDict [("category_list",
                 VDict [("categories",
                         VList [VDict [("id", VInt 1); ("name", VStr "General")]])])])).

Definition user_ok : response :=
  mkresponse 200
    (Ok (VDict [("user", VDict [("username", VStr "alice");
                                ("created_at", VStr "2019-05-01T08:00:00.000Z");
                                ("post_count", VInt 42)])])).

Definition t1 : value := topic 101 "Welcome to the forum" "2024-01-10T09:30:00.000Z" 1.
Definition t2 : value := topic 102 "Release notes" "2024-01-15T12:00:00.000Z" 1.
Definition t3 : value := topic 103 "Proof tips" "2024-01-20T18:45:10.250Z" 1.
Definition t_sub : value := topic 105 "Posted in a subcategory" "2024-01-22T08:00:00.000Z" 99.
Definition t_last_day : value := topic 106 "Posted on the last day" "2024-01-31T10:00:00.000Z" 1.

(** A listing entry that carries no [category_id]. *)
Definition t_uncategorized : value :=
  VDict [("id", VInt 107);
         ("title", VStr "No category on the wire");
         ("created_at", VStr "2024-01-23T08:00:00.000Z");
         ("posts_count", VInt 1)].

(** Two pages of topics, then an empty page. *)
Definition items (p : nat) : list value :=
  match p with
  | 0%nat => [t1; t2]
  | 1%nat => [t3]
  | _ => []
  end.

Definition forum : server :=
  mkserver categories_ok (fun p _ => listing (items p)) (fun _ => failure 404).

(** The same forum, whose listing breaks at page 2. *)
Definition forum_down_at_2 : server :=
  mkserver categories_ok
           (fun p _ => match p with 2%nat => failure 500 | _ => listing (items p) end)
           (fun _ => failure 404).



(** The user endpoint answers. *)
Definition forum_with_users : server :=
  mkserver categories_ok (fun p _ => listing (items p)) (fun _ => user_ok).

(** One topic whose category is not in the category listing. *)
Definition forum_subcategory : server :=
  mkserver categories_ok
           (fun p _ => listing (match p with 0%nat => [t_sub] | _ => [] end))
           (fun _ => failure 404).

Definition forum_uncategorized : server :=
  mkserver categories_ok
           (fun p _ => listing (match p with 0%nat => [t_uncategorized] | _ => [] end))
           (fun _ => failure 404).

(** One topic created during the last day of January. *)
Definition forum_last_day : server :=
  mkserver categories_ok
           (fun p _ => listing (match p with 0%nat => [t_last_day] | _ => [] end))
           (fun _ => failure 404).

Definition no_flags : flags := mkflags false false false.
Definition only_description : flags := mkflags false true false.
Definition only_user_details : flags := mkflags true false false.

Definition env_plain : environ := mkenv None None None None None None.
Definition env_january : environ :=
  mkenv (Some "2024-01-01") (Some "2024-01-31") None None None None.

Definition jan_1 : datetime := mkdt 2024 1 1 0 0 0 0.
Definition jan_31 : datetime := mkdt 2024 1 31 0 0 0 0.

(** The records the plain configuration selects on page [p] of [forum]. *)
Definition recs (p : nat) : list sdict :=
  match process_page no_flags forum None None None (items p) [] with
  | Ok out => out
  | Raise _ => []
  end.

End Sample.

(** ** Further vocabulary and cases *)

(** Two timestamps on the same calendar day. *)
Definition same_day (a b : datetime) : Prop :=
  year a = year b /\ month a = month b /\ day a = day b.

(** The time of day is 00:00:00.000000. *)
Definition at_midnight (d : datetime) : Prop :=
  hour d = 0 /\ minute d = 0 /\ second d = 0 /\ microsecond d = 0.

(** The record holds every key the exporter subscripts. *)
Definition has_base_keys (r : sdict) : Prop :=
  forall k, In k base_keys -> dict_lookup k r <> None.

(** The topic's [category_id] is a key of the category map. *)
Definition resolves (categories : cdict) (topic : sdict) : Prop :=
  exists category_id name,
    dict_lookup "category_id" topic = Some category_id /\
    hashable category_id = true /\
    kdict_lookup category_id categories = Some name.




(** No two keys of the dict are equal for Python. *)
Fixpoint distinct_keys {V} (d : kdict V) : Prop :=
  match d with
  | [] => True
  | (k, _) :: rest =>
      (forall k' v', In (k', v') rest -> key_eqb k k' = false) /\ distinct_keys rest
  end.

(** The [id] the grouping loop appends for a topic. *)
Definition topic_id (topic : sdict) : value := dict_get topic "id" VNone.

(** All the ids listed in the groups, group after group. *)
Definition grouped_ids (grouped_topics : kdict (list value)) : list value :=
  List.concat (map snd grouped_topics).

(** The sum of the totals written for the groups. *)
Fixpoint sum_of_totals (grouped_topics : kdict (list value)) (category_count : kdict Z) : Z :=
  match grouped_topics with
  | [] => 0
  | (k, _) :: rest =>
      match kdict_lookup k category_count with
      | Some n => n
      | None => 0
      end + sum_of_totals rest category_count
  end.

(** What the grouped section of the report holds for a group. *)
Definition group_block (entry : value * list value) : list text_write :=
  [GroupCategoryLine (fst entry); GroupIdsLine (snd entry);
   GroupTotalLine (Z.of_nat (List.length (snd entry))); BlankLine].

(** Every group's counter is the number of ids in the group. *)
Definition totals_match (grouped_topics : kdict (list value)) (category_count : kdict Z) : Prop :=
  forall k ids, In (k, ids) grouped_topics ->
    kdict_lookup k category_count = Some (Z.of_nat (List.length ids)).

(** A name without a group has no counter or a counter at 0. *)
Definition idle_at_zero (grouped_topics : kdict (list value)) (category_count : kdict Z) : Prop :=
  forall k, kdict_lookup k grouped_topics = None ->
    kdict_lookup k category_count = None \/ kdict_lookup k category_count = Some 0.

(** The category request succeeds and its body lists [items]. *)
Definition categories_listed (w : server) (items : list value) : Prop :=
  status_code (get_categories w) = 200 /\
  exists body category_list,
    json (get_categories w) = Ok body /\
    subscript body "category_list" = Ok category_list /\
    subscript category_list "categories" = Ok (VList items).

(** The value a key stands for: [True] and [False] are the integers 1 and 0. *)
Definition key_class (v : value) : option value :=
  match v with
  | VNone => Some VNone
  | VBool b => Some (VInt (if b then 1 else 0))
  | VInt z => Some (VInt z)
  | VStr s => Some (VStr s)
  | VDatetime t => Some (VDatetime t)
  | VList _ | VDict _ => None
  end.

(** The record stores under [created_at] a timestamp within [[s, e]]. *)
Definition created_within (s e : datetime) (r : sdict) : Prop :=
  exists d, dict_lookup "created_at" r = Some (VDatetime d) /\
            dt_leb s d = true /\ dt_leb d e = true.

(** Topic by topic, the loop body yields [outs] on [items]: a record to
    append or a skip. *)
Definition page_selects (fl : flags) (w : server)
    (start_date end_date : option datetime) (keyword : option string)
    (items : list value) (outs : list (option sdict)) : Prop :=
  Forall2 (fun t o => process_topic fl w start_date end_date keyword t = Ok o) items outs.

(** Pages [0], ..., [n-1] each deliver a non-empty topic list [items i] on
    which the loop body yields [outs i]. *)
Definition pages_select (fl : flags) (w : server)
    (start_date end_date : option datetime) (keyword : option string) (page_size : Z)
    (items : nat -> list value) (outs : nat -> list (option sdict)) (n : nat) : Prop :=
  forall i, (i < n)%nat ->
    page_delivers w page_size i (items i) /\
    items i <> [] /\
    page_selects fl w start_date end_date keyword (items i) (outs i).

(** The records yielded on pages [0], ..., [n-1], skips left out, in page
    order and, within a page, in listing order. *)
Definition selected_records (outs : nat -> list (option sdict)) (n : nat) : list sdict :=
  List.concat (map (fun i => kept (outs i)) (seq 0 n)).

(** The records expected from the sample forum, written out. *)
Module Expected.

Definition record (id : Z) (title : string) (created : datetime) (category : Z) : sdict :=
  [("id", VInt id);
   ("title", VStr title);
   ("category_id", VInt category);
   ("created_at", VDatetime created);
   ("posts_count", VInt 3);
   ("views_count", VInt 10);
   ("user", VStr "alice")].

Definition r101 : sdict := record 101 "Welcome to the forum" (mkdt 2024 1 10 9 30 0 0) 1.
Definition r102 : sdict := record 102 "Release notes" (mkdt 2024 1 15 12 0 0 0) 1.
Definition r103 : sdict := record 103 "Proof tips" (mkdt 2024 1 20 18 45 10 250000) 1.

Definition outs (p : nat) : list (option sdict) :=
  match p with
  | 0%nat => [Some r101; Some r102]
  | 1%nat => [Some r103]
  | _ => []
  end.

End Expected.

Module Cases.

(** A listing entry without [posts_count]. *)
Definition fields_no_posts_count : sdict :=
  [("id", VInt 108);
   ("title", VStr "Half an entry");
   ("created_at", VStr "2024-01-24T08:00:00.000Z")].

(** A forum whose listing never runs dry. *)
Definition forum_endless : server :=
  mkserver Sample.categories_ok (fun _ _ => Sample.listing [Sample.t1])
           (fun _ => Sample.failure 404).

(** The user endpoint answers 200 with a body that has no [user] entry. *)
Definition forum_odd_users : server :=
  mkserver Sample.categories_ok (fun p _ => Sample.listing (Sample.items p))
           (fun _ => mkresponse 200 (Ok (VDict [("errors", VList [])]))).

(** The category request is refused. *)
Definition forum_no_categories : server :=
  mkserver (Sample.failure 403) (fun p _ => Sample.listing (Sample.items p))
           (fun _ => Sample.failure 404).

(** A listing whose body has no [topic_list]. *)
Definition forum_no_topic_list : server :=
  mkserver Sample.categories_ok (fun _ _ => mkresponse 200 (Ok (VDict [("users", VList [])])))
           (fun _ => Sample.failure 404).

Definition env_bad_start : environ :=
  mkenv (Some "01/01/2024") None None None None None.

End Cases.

(** * Properties *)

(** ** The order on timestamps *)

Lemma lex_leb_negb_ltb (a b : list Z) :
  List.length a = List.length b -> lex_leb a b = negb (lex_ltb b a).
Proof.
  revert b; induction a as [|x a IH]; intros [|y b] Hlen; simpl in *;
    try discriminate; try reflexivity.
  injection Hlen as Hlen. rewrite (IH b Hlen).
  destruct (Z.ltb_spec x y), (Z.ltb_spec y x), (Z.eqb_spec x y), (Z.eqb_spec y x);
    simpl; try reflexivity; try lia.
Qed.

Lemma dt_leb_negb_ltb (a b : datetime) : dt_leb a b = negb (dt_ltb b a).
Proof. apply lex_leb_negb_ltb. reflexivity. Qed.

Lemma lex_leb_trans (a b c : list Z) :
  lex_leb a b = true -> lex_leb b c = true -> lex_leb a c = true.
Proof.
  revert b c; induction a as [|x a IH]; intros [|y b] [|z c]; simpl;
    try discriminate; try reflexivity.
  intros H1 H2.
  destruct (Z.ltb_spec x y), (Z.ltb_spec y z), (Z.ltb_spec x z),
           (Z.eqb_spec x y), (Z.eqb_spec y z), (Z.eqb_spec x z);
    simpl in *; try reflexivity; try discriminate; try lia.
  eauto.
Qed.

(** ** The error monad *)

Lemma bind_ok {A B} (m : result A) (f : A -> result B) (b : B) :
  bind m f = Ok b -> exists a, m = Ok a /\ f a = Ok b.
Proof. destruct m as [a|e]; simpl; [eauto | discriminate]. Qed.

(** ** One page *)

Section PageFacts.

Variable fl : flags.
Variable w : server.
Variables start_date end_date : option datetime.
Variable keyword : option string.

Local Abbreviation process_topic := (process_topic fl w start_date end_date keyword).
Local Abbreviation process_page := (process_page fl w start_date end_date keyword).

(** The accumulator is only ever extended. *)
Lemma process_page_acc (items : list value) :
  forall acc out, process_page items [] = Ok out ->
                  process_page items acc = Ok (acc ++ out).
Proof.
  assert (G : forall acc0 acc out, process_page items acc0 = Ok out ->
                process_page items (acc ++ acc0) = Ok (acc ++ out)).
  { induction items as [|t rest IH]; intros acc0 acc out H; simpl in *.
    - congruence.
    - destruct (process_topic t) as [[r|]|e]; simpl in *; try discriminate.
      + rewrite <- app_assoc. apply IH. exact H.
      + apply IH. exact H. }
  intros acc out H. specialize (G [] acc out H). rewrite app_nil_r in G. exact G.
Qed.

Lemma process_page_raise_acc (items : list value) :
  forall acc acc' e, process_page items acc = Raise e ->
                     process_page items acc' = Raise e.
Proof.
  induction items as [|t rest IH]; intros acc acc' e H; simpl in *.
  - discriminate.
  - destruct (process_topic t) as [[r|]|e']; simpl in *; eauto.
Qed.

(** A page that goes through yields, topic by topic, a record or a skip. *)
Lemma process_page_inv (items : list value) :
  forall acc out, process_page items acc = Ok out ->
    exists rs, Forall2 (fun t r => process_topic t = Ok r) items rs /\
               out = acc ++ kept rs.
Proof.
  induction items as [|t rest IH]; intros acc out H; simpl in *.
  - exists []. split; [constructor|]. rewrite app_nil_r. congruence.
  - destruct (process_topic t) as [[r|]|e] eqn:Et; simpl in *; try discriminate.
    + destruct (IH _ _ H) as (rs & HF & ->).
      exists (Some r :: rs). split; [constructor; assumption|].
      simpl. rewrite <- app_assoc. reflexivity.
    + destruct (IH _ _ H) as (rs & HF & ->).
      exists (None :: rs). split; [constructor; assumption|]. reflexivity.
Qed.

Lemma kept_in (rs : list (option sdict)) (r : sdict) :
  In r (kept rs) <-> In (Some r) rs.
Proof.
  induction rs as [|[x|] rs IH]; simpl.
  - tauto.
  - rewrite IH. split; intros [H|H]; auto; left; congruence.
  - rewrite IH. split; [auto|]. intros [H|H]; [discriminate|auto].
Qed.

(** Every record a page adds comes from one of its topics. *)
Lemma process_page_sound (items : list value) (acc out : list sdict) (r : sdict) :
  process_page items acc = Ok out -> In r out ->
  In r acc \/ exists t, In t items /\ process_topic t = Ok (Some r).
Proof.
  intros H Hin. destruct (process_page_inv _ _ _ H) as (rs & HF & ->).
  apply in_app_or in Hin. destruct Hin as [Hin|Hin]; [left; exact Hin|right].
  apply kept_in in Hin.
  clear H. induction HF as [|t o items' rs' Ht HF IH]; simpl in *; [contradiction|].
  destruct Hin as [->|Hin].
  - exists t. auto.
  - destruct (IH Hin) as (t' & Hin' & Ht'). exists t'. auto.
Qed.


(** A topic that raises makes the whole page raise. *)
Lemma process_page_raises (pre post : list value) (t : value) (e : exn) :
  process_topic t = Raise e ->
  forall acc, exists e', process_page (pre ++ t :: post) acc = Raise e' /\
                         (forall out, process_page pre [] = Ok out -> e' = e).
Proof.
  intros Ht. induction pre as [|t0 pre IH]; intros acc; simpl.
  - rewrite Ht. simpl. exists e. auto.
  - destruct (process_topic t0) as [[r|]|e0]; simpl.
    + destruct (IH (acc ++ [r])) as (e' & H1 & H2). exists e'. split; [exact H1|].
      intros out Hout.
      destruct (process_page pre []) as [out'|e''] eqn:Epre.
      * eapply H2. reflexivity.
      * apply (process_page_raise_acc _ _ [r]) in Epre. simpl in Hout. congruence.
    + destruct (IH acc) as (e' & H1 & H2). exists e'. split; [exact H1|]. exact H2.
    + exists e0. split; [reflexivity|]. discriminate.
Qed.

End PageFacts.

(** ** The pagination loop *)

Section LoopFacts.

Variable fl : flags.
Variable w : server.
Variables start_date end_date : option datetime.
Variable keyword : option string.
Variable page_size : Z.

Local Abbreviation process_topic := (process_topic fl w start_date end_date keyword).
Local Abbreviation process_page := (process_page fl w start_date end_date keyword).
Local Abbreviation fetch_loop := (fetch_loop fl w start_date end_date keyword page_size).

Lemma fetch_loop_fails (fuel p : nat) (acc : list sdict) :
  page_fails w page_size p -> fetch_loop (S fuel) p acc = Some (Ok acc).
Proof.
  unfold page_fails. intros H. simpl.
  destruct (Z.eqb_spec (status_code (get_latest w p page_size)) 200); [contradiction|reflexivity].
Qed.

Lemma fetch_loop_empty (fuel p : nat) (acc : list sdict) :
  page_empty w page_size p -> fetch_loop (S fuel) p acc = Some (Ok acc).
Proof.
  intros (Hs & data & tl & Hj & Htl & Ht). simpl.
  rewrite Hs, Hj. simpl. rewrite Htl, Ht. reflexivity.
Qed.

Lemma fetch_loop_step (fuel p : nat) (acc out : list sdict) (items : list value) :
  page_delivers w page_size p items -> items <> [] ->
  process_page items acc = Ok out ->
  fetch_loop (S fuel) p acc = fetch_loop fuel (S p) out.
Proof.
  intros (Hs & data & Hj & Htl) Hne Hp. simpl.
  rewrite Hs, Hj. simpl. rewrite Htl.
  destruct items as [|t items]; [contradiction|].
  cbn [truthy negb iterate bind]. rewrite Hp. reflexivity.
Qed.


(** [n] pages that go through take [n] turns of the loop and append their
    records in page order. *)
Lemma fetch_loop_pages (items : nat -> list value) (recs : nat -> list sdict) :
  forall (n fuel p : nat) (acc : list sdict),
    pages_go_through fl w start_date end_date keyword page_size items recs p n ->
    fetch_loop (n + fuel) p acc =
    fetch_loop fuel (p + n) (acc ++ records_of_pages recs p n).
Proof.
  induction n as [|n IH]; intros fuel p acc H.
  - unfold records_of_pages. simpl. rewrite app_nil_r, Nat.add_0_r. reflexivity.
  - destruct (H p ltac:(lia)) as (Hd & Hne & Hp).
    change (S n + fuel)%nat with (S (n + fuel)).
    rewrite (fetch_loop_step _ _ _ _ _ Hd Hne (process_page_acc fl w start_date end_date keyword _ acc _ Hp)).
    rewrite IH.
    + unfold records_of_pages. simpl. rewrite <- app_assoc.
      replace (p + S n)%nat with (S p + n)%nat by lia. reflexivity.
    + intros i Hi. apply H. lia.
Qed.

(** Whatever the loop returns was already collected or comes from a topic
    of some listing page. *)
Lemma fetch_loop_sound :
  forall (fuel p : nat) (acc out : list sdict),
    fetch_loop fuel p acc = Some (Ok out) ->
    forall r, In r out ->
      In r acc \/
      exists q t, on_page w page_size q t /\ process_topic t = Ok (Some r).
Proof.
  induction fuel as [|fuel IH]; intros p acc out H r Hin; simpl in H; [discriminate|].
  destruct (Z.eqb_spec (status_code (get_latest w p page_size)) 200) as [Hs|Hs];
    simpl in H; [|injection H as <-; auto].
  destruct (json (get_latest w p page_size)) as [data|e] eqn:Hj; simpl in H; [|discriminate].
  destruct (topic_list_of data) as [tl|e] eqn:Htl; [|discriminate].
  destruct (truthy tl); simpl in H; [|injection H as <-; auto].
  destruct (iterate tl) as [its|e] eqn:Hit; simpl in H; [|discriminate].
  destruct (process_page its acc) as [acc'|e] eqn:Hp; [|discriminate].
  destruct (IH _ _ _ H r Hin) as [Hacc|Hex]; [|right; exact Hex].
  destruct (process_page_sound fl w start_date end_date keyword _ _ _ _ Hp Hacc) as [Hacc'|(t & Ht & Hpt)];
    [left; exact Hacc'|right].
  exists p, t. split; [|exact Hpt].
  split; [exact Hs|]. exists data, tl, its. auto.
Qed.

End LoopFacts.

(** ** Dict facts *)

Lemma dict_lookup_set_same (k : string) (v : value) (d : sdict) :
  dict_lookup k (dict_set k v d) = Some v.
Proof.
  induction d as [|[k' v'] d IH]; simpl.
  - rewrite String.eqb_refl. reflexivity.
  - destruct (String.eqb k k') eqn:E; simpl; rewrite E; [reflexivity|exact IH].
Qed.

Lemma dict_lookup_set_other (k k' : string) (v : value) (d : sdict) :
  k <> k' -> dict_lookup k (dict_set k' v d) = dict_lookup k d.
Proof.
  intros Hne. induction d as [|[k0 v0] d IH]; simpl.
  - destruct (String.eqb_spec k k'); [contradiction|reflexivity].
  - destruct (String.eqb_spec k' k0) as [->|Hk]; simpl.
    + destruct (String.eqb_spec k k0); [contradiction|reflexivity].
    + rewrite IH. reflexivity.
Qed.

Lemma dict_update_nil (d : sdict) : dict_update d [] = d.
Proof. reflexivity. Qed.

(** Assigning a key that is absent appends it. *)
Lemma dict_set_fresh (k : string) (v : value) (d : sdict) :
  dict_lookup k d = None -> dict_set k v d = d ++ [(k, v)].
Proof.
  induction d as [|[k' v'] d IH]; simpl; [reflexivity|].
  destruct (String.eqb k k'); [discriminate|].
  intros H. rewrite (IH H). reflexivity.
Qed.

(** ** One topic *)

Section TopicFacts.

Variable fl : flags.
Variable w : server.
Variables start_date end_date : option datetime.
Variable keyword : option string.

Local Abbreviation process_topic := (process_topic fl w start_date end_date keyword).

(** What it takes for a topic to yield a record, read off the loop body. *)
Lemma process_topic_inv (t : value) (r : sdict) :
  process_topic t = Ok (Some r) ->
  exists topic str d b b',
    t = VDict topic /\
    dict_lookup "created_at" topic = Some (VStr str) /\
    strptime_wire str = Some d /\
    before_start start_date d = false /\
    after_end end_date d = false /\
    keyword_misses keyword topic = Ok false /\
    base_record topic d = Ok b /\
    merge_user_details fl w topic b = Ok b' /\
    r = copy_optional (FETCH_LAST_POSTED_AT fl) "last_posted_at" topic
          (copy_optional (FETCH_TOPIC_DESCRIPTION fl) "description" topic b').
Proof.
  destruct t as [| | | |l|topic|]; simpl; try discriminate.
  unfold dict_index at 1.
  destruct (dict_lookup "created_at" topic) as [c|] eqn:Ec; simpl; [|discriminate].
  destruct c as [| | |str| | |]; simpl; try discriminate.
  destruct (strptime_wire str) as [d|] eqn:Ed; simpl; [|discriminate].
  destruct (before_start start_date d) eqn:Eb; [discriminate|].
  destruct (after_end end_date d) eqn:Ea; [discriminate|].
  destruct (keyword_misses keyword topic) as [[|]|e] eqn:Ek; simpl; try discriminate.
  destruct (base_record topic d) as [b|e] eqn:Eb0; simpl; [|discriminate].
  destruct (merge_user_details fl w topic b) as [b'|e] eqn:Em; simpl; [|discriminate].
  intros H. injection H as <-.
  exists topic, str, d, b, b'. repeat split; auto.
Qed.

Lemma process_topic_intro (topic : sdict) (str : string) (d : datetime) (b b' : sdict) :
  dict_lookup "created_at" topic = Some (VStr str) ->
  strptime_wire str = Some d ->
  before_start start_date d = false ->
  after_end end_date d = false ->
  keyword_misses keyword topic = Ok false ->
  base_record topic d = Ok b ->
  merge_user_details fl w topic b = Ok b' ->
  process_topic (VDict topic) =
  Ok (Some (copy_optional (FETCH_LAST_POSTED_AT fl) "last_posted_at" topic
              (copy_optional (FETCH_TOPIC_DESCRIPTION fl) "description" topic b'))).
Proof.
  intros Hc Hd Hb Ha Hk Hb0 Hm. simpl. unfold dict_index at 1.
  rewrite Hc. simpl. rewrite Hd. simpl. rewrite Hb, Ha, Hk. simpl.
  rewrite Hb0. simpl. rewrite Hm. reflexivity.
Qed.


Lemma base_record_shape (topic : sdict) (d : datetime) (b : sdict) :
  base_record topic d = Ok b ->
  dict_keys b = base_keys /\ dict_lookup "created_at" b = Some (VDatetime d).
Proof.
  unfold base_record, dict_index.
  destruct (dict_lookup "id" topic); simpl; [|discriminate].
  destruct (dict_lookup "title" topic); simpl; [|discriminate].
  destruct (dict_lookup "posts_count" topic); simpl; [|discriminate].
  intros H. injection H as <-. split; reflexivity.
Qed.

Lemma copy_optional_other (flag : bool) (k k' : string) (topic td : sdict) :
  k <> k' ->
  dict_lookup k (copy_optional flag k' topic td) = dict_lookup k td.
Proof.
  intros Hne. unfold copy_optional.
  destruct (flag && dict_contains k' topic); [|reflexivity].
  destruct (dict_lookup k' topic); [|reflexivity].
  apply dict_lookup_set_other. exact Hne.
Qed.

Lemma copy_optional_off (k : string) (topic td : sdict) :
  copy_optional false k topic td = td.
Proof. reflexivity. Qed.

Lemma merge_user_details_off (topic td : sdict) :
  FETCH_USER_DETAILS fl = false -> merge_user_details fl w topic td = Ok td.
Proof. intros H. unfold merge_user_details. rewrite H. reflexivity. Qed.

End TopicFacts.

(** ** Pagination: how the loop ends *)

(** A page on which the loop body yields [outs] appends the records among
    them, in order. *)
Lemma page_selects_process_page
    (fl : flags) (w : server) (start_date end_date : option datetime)
    (keyword : option string) (items : list value) (outs : list (option sdict)) :
  page_selects fl w start_date end_date keyword items outs ->
  forall topics,
    process_page fl w start_date end_date keyword items topics = Ok (topics ++ kept outs).
Proof.
  intros H. induction H as [|t o items outs Ht _ IH]; intros topics; simpl.
  - rewrite app_nil_r. reflexivity.
  - rewrite Ht. simpl. destruct o as [r|].
    + rewrite IH. simpl. rewrite <- app_assoc. reflexivity.
    + apply IH.
Qed.

Lemma pages_select_go_through
    (fl : flags) (w : server) (start_date end_date : option datetime)
    (keyword : option string) (page_size : Z)
    (items : nat -> list value) (outs : nat -> list (option sdict)) (n : nat) :
  pages_select fl w start_date end_date keyword page_size items outs n ->
  pages_go_through fl w start_date end_date keyword page_size items
    (fun i => kept (outs i)) 0 n.
Proof.
  intros H i Hi. destruct (H i ltac:(lia)) as (Hd & Hne & Hsel).
  split; [exact Hd|]. split; [exact Hne|].
  apply (page_selects_process_page _ _ _ _ _ _ _ Hsel []).
Qed.

Lemma sample_pages_go_through (w : server) :
  (forall p ps, get_latest w p ps = Sample.listing (Sample.items p)) ->
  pages_go_through Sample.no_flags w None None None 30 Sample.items Sample.recs 0 2.
Proof.
  intros Hw i Hi. unfold page_delivers. rewrite Hw.
  destruct i as [|[|i]]; [| |lia].
  - split; [|split].
    + split; [reflexivity|]. eexists. split; reflexivity.
    + discriminate.
    + reflexivity.
  - split; [|split].
    + split; [reflexivity|]. eexists. split; reflexivity.
    + discriminate.
    + reflexivity.
Defined.

(** C4. The loop stops at the first page whose topic list is empty, and
    returns exactly the records the loop body yields on the topics of the
    pages before it, skipped topics left out, in page order and listing
    order; in particular two non-empty pages followed by an empty one yield
    the records of the topics of those two pages. *)
Theorem pagination_halts_on_first_empty_page
    (fl : flags) (w : server) (start_date end_date : option datetime)
    (keyword : option string) (page_size : Z)
    (items : nat -> list value) (outs : nat -> list (option sdict)) (n : nat) :
  pages_select fl w start_date end_date keyword page_size items outs n ->
  page_empty w page_size n ->
  forall fuel, (n < fuel)%nat ->
    fetch_all_topics fl w start_date end_date keyword page_size fuel =
    Some (Ok (selected_records outs n)).
Proof.
  intros Hpages Hempty fuel Hfuel. unfold fetch_all_topics.
  replace fuel with (n + S (fuel - S n))%nat by lia.
  rewrite (fetch_loop_pages _ _ _ _ _ _ items (fun i => kept (outs i)) n _ 0%nat []
             (pages_select_go_through _ _ _ _ _ _ _ _ _ Hpages)).
  simpl. apply fetch_loop_empty. exact Hempty.
Qed.

Lemma pagination_halts_witness :
  fetch_all_topics Sample.no_flags Sample.forum None None None 30 3 =
  Some (Ok [Expected.r101; Expected.r102; Expected.r103]).
Proof.
  apply (pagination_halts_on_first_empty_page
           Sample.no_flags Sample.forum None None None 30 Sample.items Expected.outs 2).
  - intros i Hi. destruct i as [|[|i]]; [| |lia];
      (split; [split; [reflexivity|eexists; split; reflexivity]
              |split; [discriminate|repeat constructor]]).
  - split; [reflexivity|]. eexists. eexists. repeat split; reflexivity.
  - lia.
Defined.

(** C5. A non-success status on page [n], after pages [0..n-1] went through,
    ends the loop at once with exactly the records the loop body yielded on
    the topics of pages [0..n-1], in order: what was appended is returned. *)
Theorem failed_page_returns_partial_results
    (fl : flags) (w : server) (start_date end_date : option datetime)
    (keyword : option string) (page_size : Z)
    (items : nat -> list value) (outs : nat -> list (option sdict)) (n : nat) :
  pages_select fl w start_date end_date keyword page_size items outs n ->
  page_fails w page_size n ->
  forall fuel, (n < fuel)%nat ->
    fetch_all_topics fl w start_date end_date keyword page_size fuel =
    Some (Ok (selected_records outs n)).
Proof.
  intros Hpages Hfails fuel Hfuel. unfold fetch_all_topics.
  replace fuel with (n + S (fuel - S n))%nat by lia.
  rewrite (fetch_loop_pages _ _ _ _ _ _ items (fun i => kept (outs i)) n _ 0%nat []
             (pages_select_go_through _ _ _ _ _ _ _ _ _ Hpages)).
  simpl. apply fetch_loop_fails. exact Hfails.
Qed.

Lemma failed_page_witness :
  fetch_all_topics Sample.no_flags Sample.forum_down_at_2 None None None 30 3 =
  Some (Ok [Expected.r101; Expected.r102; Expected.r103]).
Proof.
  apply (failed_page_returns_partial_results
           Sample.no_flags Sample.forum_down_at_2 None None None 30
           Sample.items Expected.outs 2).
  - intros i Hi. destruct i as [|[|i]]; [| |lia];
      (split; [split; [reflexivity|eexists; split; reflexivity]
              |split; [discriminate|repeat constructor]]).
  - unfold page_fails. simpl. discriminate.
  - lia.
Defined.



(** ** The filters *)

(** The date tests themselves are sound: with both bounds set, every
    returned record was built from a listed topic whose parsed creation time
    [d] satisfies [start_date <= d <= end_date]; that [d] is what the record
    stores under [created_at] as long as the user-detail merge is off. *)
Theorem date_filter_sound
    (fl : flags) (w : server) (s e : datetime) (keyword : option string)
    (page_size : Z) (fuel : nat) (out : list sdict) (r : sdict) :
  fetch_all_topics fl w (Some s) (Some e) keyword page_size fuel = Some (Ok out) ->
  In r out ->
  exists p topic str d,
    on_page w page_size p (VDict topic) /\
    process_topic fl w (Some s) (Some e) keyword (VDict topic) = Ok (Some r) /\
    dict_lookup "created_at" topic = Some (VStr str) /\
    strptime_wire str = Some d /\
    dt_leb s d = true /\ dt_leb d e = true /\
    (FETCH_USER_DETAILS fl = false ->
     dict_lookup "created_at" r = Some (VDatetime d)).
Proof.
  intros Hfetch Hin. unfold fetch_all_topics in Hfetch.
  destruct (fetch_loop_sound _ _ _ _ _ _ _ _ _ _ Hfetch r Hin) as [[]|(p & t & Hon & Ht)].
  destruct (process_topic_inv _ _ _ _ _ _ _ Ht)
    as (topic & str & d & b & b' & -> & Hc & Hd & Hb & Ha & _ & Hb0 & Hm & Hr).
  exists p, topic, str, d.
  repeat (split; [assumption|]).
  split; [|split].
  - rewrite dt_leb_negb_ltb. simpl in Hb. rewrite Hb. reflexivity.
  - rewrite dt_leb_negb_ltb. simpl in Ha. unfold dt_gtb in Ha. rewrite Ha. reflexivity.
  - intros Hoff. rewrite (merge_user_details_off _ _ _ _ Hoff) in Hm.
    injection Hm as <-. subst r.
    rewrite !copy_optional_other by discriminate.
    apply (base_record_shape _ _ _ Hb0).
Qed.

Lemma date_filter_witness :
  exists p topic str d,
    on_page Sample.forum 30 p (VDict topic) /\
    process_topic Sample.no_flags Sample.forum (Some Sample.jan_1) (Some Sample.jan_31) None
      (VDict topic) = Ok (Some (hd [] (Sample.recs 1))) /\
    dict_lookup "created_at" topic = Some (VStr str) /\
    strptime_wire str = Some d /\
    dt_leb Sample.jan_1 d = true /\ dt_leb d Sample.jan_31 = true /\
    (FETCH_USER_DETAILS Sample.no_flags = false ->
     dict_lookup "created_at" (hd [] (Sample.recs 1)) = Some (VDatetime d)).
Proof.
  apply (date_filter_sound Sample.no_flags Sample.forum Sample.jan_1 Sample.jan_31 None 30 3
           (Sample.recs 0 ++ Sample.recs 1)).
  - reflexivity.
  - simpl. right. right. left. reflexivity.
Defined.

(** C3. With FETCH_USER_DETAILS on and a user endpoint that answers, the
    records returned for January 2024 do not store a creation time within
    the bounds: every one of them holds under [created_at] the user's
    registration string of 2019, which is no timestamp and, read as one, lies
    before the start date. *)
Theorem date_range_broken_by_user_merge :
  exists out,
    fetch_all_topics Sample.only_user_details Sample.forum_with_users
      (Some Sample.jan_1) (Some Sample.jan_31) None 30 3 = Some (Ok out) /\
    List.length out = 3%nat /\
    (forall r, In r out ->
       dict_lookup "created_at" r = Some (VStr "2019-05-01T08:00:00.000Z") /\
       ~ created_within Sample.jan_1 Sample.jan_31 r) /\
    strptime_wire "2019-05-01T08:00:00.000Z" = Some (mkdt 2019 5 1 8 0 0 0) /\
    dt_ltb (mkdt 2019 5 1 8 0 0 0) Sample.jan_1 = true.
Proof.
  eexists. split; [reflexivity|]. split; [reflexivity|]. split; [|split; reflexivity].
  intros r Hin. simpl in Hin.
  destruct Hin as [<-|[<-|[<-|[]]]];
    (split; [reflexivity|intros (d & Hd & _); discriminate Hd]).
Qed.

(** ** Enrichment *)

(** C6. With only [FETCH_TOPIC_DESCRIPTION] on, a record carries the
    topic's [description] exactly when the topic has one, and never a
    [username], [post_count] or [last_posted_at]: its keys are the base keys,
    followed by [description] when present. *)
Theorem description_flag_is_independent
    (fl : flags) (w : server) (start_date end_date : option datetime)
    (keyword : option string) (topic r : sdict) :
  FETCH_USER_DETAILS fl = false ->
  FETCH_TOPIC_DESCRIPTION fl = true ->
  FETCH_LAST_POSTED_AT fl = false ->
  process_topic fl w start_date end_date keyword (VDict topic) = Ok (Some r) ->
  dict_lookup "description" r = dict_lookup "description" topic /\
  dict_lookup "username" r = None /\
  dict_lookup "post_count" r = None /\
  dict_lookup "last_posted_at" r = None /\
  dict_keys r =
    base_keys ++ (if dict_contains "description" topic then ["description"] else []).
Proof.
  intros Hu Hd Hl Ht.
  destruct (process_topic_inv _ _ _ _ _ _ _ Ht)
    as (topic' & str & d & b & b' & Heq & _ & _ & _ & _ & _ & Hb0 & Hm & ->).
  injection Heq as <-.
  rewrite (merge_user_details_off _ _ _ _ Hu) in Hm. injection Hm as <-.
  rewrite Hd, Hl. rewrite copy_optional_off.
  unfold base_record, dict_index in Hb0.
  destruct (dict_lookup "id" topic); simpl in Hb0; [|discriminate].
  destruct (dict_lookup "title" topic); simpl in Hb0; [|discriminate].
  destruct (dict_lookup "posts_count" topic); simpl in Hb0; [|discriminate].
  injection Hb0 as <-.
  unfold copy_optional, dict_contains.
  destruct (dict_lookup "description" topic) as [desc|]; simpl; repeat split; reflexivity.
Qed.

Lemma description_flag_witness :
  let topic := Sample.fields 101 "Welcome to the forum" "2024-01-10T09:30:00.000Z" 1 in
  let r := base_keys in
  exists rec,
    process_topic Sample.only_description Sample.forum_with_users None None None
      (VDict topic) = Ok (Some rec) /\
    dict_lookup "description" rec = Some (VStr "An excerpt") /\
    dict_lookup "username" rec = None /\
    dict_lookup "post_count" rec = None /\
    dict_lookup "last_posted_at" rec = None /\
    dict_keys rec = r ++ ["description"].
Proof.
  intros topic r. eexists. split; [reflexivity|].
  apply (description_flag_is_independent Sample.only_description Sample.forum_with_users
           None None None topic); reflexivity.
Defined.

(** C7. With [FETCH_USER_DETAILS] on and a last-poster id present, a
    non-success answer of the user endpoint merges nothing: the record after
    the merge is the base record with its seven keys, the topic still yields
    its record, and the page goes on with the topics after it. *)
Theorem failed_user_fetch_merges_nothing
    (fl : flags) (w : server) (start_date end_date : option datetime)
    (keyword : option string) (topic : sdict) (str : string) (d : datetime)
    (user_id : value) (b : sdict) (rest : list value) (topics : list sdict) :
  FETCH_USER_DETAILS fl = true ->
  dict_lookup "last_poster_user_id" topic = Some user_id ->
  truthy user_id = true ->
  status_code (get_user w user_id) <> 200 ->
  dict_lookup "created_at" topic = Some (VStr str) ->
  strptime_wire str = Some d ->
  before_start start_date d = false ->
  after_end end_date d = false ->
  keyword_misses keyword topic = Ok false ->
  base_record topic d = Ok b ->
  let r := copy_optional (FETCH_LAST_POSTED_AT fl) "last_posted_at" topic
             (copy_optional (FETCH_TOPIC_DESCRIPTION fl) "description" topic b) in
  merge_user_details fl w topic b = Ok b /\
  dict_keys b = base_keys /\
  process_topic fl w start_date end_date keyword (VDict topic) = Ok (Some r) /\
  (FETCH_TOPIC_DESCRIPTION fl = false -> FETCH_LAST_POSTED_AT fl = false -> r = b) /\
  process_page fl w start_date end_date keyword (VDict topic :: rest) topics =
  process_page fl w start_date end_date keyword rest (topics ++ [r]).
Proof.
  intros Hflag Hid Htruthy Hstatus Hc Hd Hb Ha Hk Hb0 r.
  assert (Hm : merge_user_details fl w topic b = Ok b).
  { unfold merge_user_details, dict_get, dict_index, fetch_user_details.
    rewrite Hflag, Hid, Htruthy. simpl.
    destruct (Z.eqb_spec (status_code (get_user w user_id)) 200); [contradiction|].
    reflexivity. }
  assert (Ht : process_topic fl w start_date end_date keyword (VDict topic) = Ok (Some r)).
  { apply (process_topic_intro fl w start_date end_date keyword topic str d b b);
      assumption. }
  split; [exact Hm|]. split; [apply (base_record_shape _ _ _ Hb0)|].
  split; [exact Ht|]. split.
  - intros H1 H2. subst r. rewrite H1, H2. reflexivity.
  - cbn [process_page]. rewrite Ht. reflexivity.
Qed.

Lemma failed_user_fetch_witness :
  let topic := Sample.fields 101 "Welcome to the forum" "2024-01-10T09:30:00.000Z" 1 in
  let b := hd [] (Sample.recs 0) in
  merge_user_details Sample.only_user_details Sample.forum topic b = Ok b /\
  dict_keys b = base_keys /\
  process_topic Sample.only_user_details Sample.forum None None None (VDict topic) =
    Ok (Some b) /\
  (FETCH_TOPIC_DESCRIPTION Sample.only_user_details = false ->
   FETCH_LAST_POSTED_AT Sample.only_user_details = false -> b = b) /\
  process_page Sample.only_user_details Sample.forum None None None
    (VDict topic :: [Sample.t2]) [] =
  process_page Sample.only_user_details Sample.forum None None None [Sample.t2] ([] ++ [b]).
Proof.
  intros topic b.
  apply (failed_user_fetch_merges_nothing Sample.only_user_details Sample.forum None None None
           topic "2024-01-10T09:30:00.000Z" (mkdt 2024 1 10 9 30 0 0) (VInt 7) b
           [Sample.t2] []); try reflexivity.
  simpl. discriminate.
Defined.

(** ** The end of the date range *)


(** C2. With START_DATE=2024-01-01 and END_DATE=2024-01-31, a topic created
    at 10:00 on 31 January is on the only page fetched, is dated on the end
    date, passes the (absent) keyword filter, and is nevertheless missing
    from the result: the end bound is midnight at the start of that day. *)
Theorem last_day_topic_is_dropped :
  date_of (START_DATE Sample.env_january) = Ok (Some Sample.jan_1) /\
  date_of (END_DATE Sample.env_january) = Ok (Some Sample.jan_31) /\
  on_page Sample.forum_last_day 30 0 Sample.t_last_day /\
  strptime_wire "2024-01-31T10:00:00.000Z" = Some (mkdt 2024 1 31 10 0 0 0) /\
  fetch_all_topics Sample.no_flags Sample.forum_last_day
    (Some Sample.jan_1) (Some Sample.jan_31) None 30 2 = Some (Ok []) /\
  main Sample.env_january Sample.forum_last_day 2 = Some ReportedFailure.
Proof.
  repeat split; try reflexivity.
  eexists. eexists. eexists. repeat split; try reflexivity. simpl. auto.
Qed.

(** ** The user-detail merge and the record's own fields *)

(** A successful user fetch returns exactly three keys, [created_at] among them. *)
Lemma fetch_user_details_shape (w : server) (user_id : value) (ud : sdict) :
  status_code (get_user w user_id) = 200 ->
  fetch_user_details w user_id = Ok ud ->
  exists username created_at post_count,
    ud = [("username", username); ("created_at", created_at); ("post_count", post_count)].
Proof.
  intros Hs. unfold fetch_user_details. rewrite Hs. simpl.
  destruct (json (get_user w user_id)) as [body|]; simpl; [|discriminate].
  destruct (subscript body "user") as [user_data|]; simpl; [|discriminate].
  destruct (subscript user_data "username") as [u|]; simpl; [|discriminate].
  destruct (subscript user_data "created_at") as [c|]; simpl; [|discriminate].
  destruct (subscript user_data "post_count") as [n|]; simpl; [|discriminate].
  intros H. injection H as <-. eauto.
Qed.

(** Whenever the merge runs with a successful user fetch, the record's
    [created_at] becomes the user's registration timestamp. *)
Lemma merge_user_details_overwrites_created_at
    (fl : flags) (w : server) (topic b b' : sdict) (user_id : value) :
  FETCH_USER_DETAILS fl = true ->
  dict_lookup "last_poster_user_id" topic = Some user_id ->
  truthy user_id = true ->
  status_code (get_user w user_id) = 200 ->
  merge_user_details fl w topic b = Ok b' ->
  exists username created_at post_count,
    fetch_user_details w user_id =
      Ok [("username", username); ("created_at", created_at); ("post_count", post_count)] /\
    dict_lookup "created_at" b' = Some created_at.
Proof.
  intros Hflag Hid Htruthy Hs. unfold merge_user_details, dict_get, dict_index.
  rewrite Hflag, Hid, Htruthy. simpl.
  destruct (fetch_user_details w user_id) as [ud|] eqn:Eud; simpl; [|discriminate].
  intros H. injection H as <-.
  destruct (fetch_user_details_shape _ _ _ Hs Eud) as (u & c & n & ->).
  exists u, c, n. split; [reflexivity|].
  unfold dict_update. simpl.
  rewrite dict_lookup_set_other by discriminate.
  apply dict_lookup_set_same.
Qed.

(** C8. With [FETCH_USER_DETAILS] on and a user fetch that succeeds, the
    base record of topic 101 holds the topic's creation time under
    [created_at], and the merged record holds the user's registration
    timestamp there instead: the merge overwrites a base field. *)
Theorem user_merge_overwrites_created_at :
  let topic := Sample.fields 101 "Welcome to the forum" "2024-01-10T09:30:00.000Z" 1 in
  let d := mkdt 2024 1 10 9 30 0 0 in
  exists b r,
    base_record topic d = Ok b /\
    dict_lookup "created_at" b = Some (VDatetime d) /\
    merge_user_details Sample.only_user_details Sample.forum_with_users topic b = Ok r /\
    dict_lookup "created_at" r = Some (VStr "2019-05-01T08:00:00.000Z") /\
    dict_keys r = base_keys ++ ["username"; "post_count"] /\
    process_topic Sample.only_user_details Sample.forum_with_users None None None
      (VDict topic) = Ok (Some r).
Proof.
  intros topic d. eexists. eexists. repeat split; reflexivity.
Qed.

(** ** The exporter *)

(** The first topic whose category is not in the map stops the grouping
    loop at line 176, unless some category is itself named
    "Unknown Category". *)
Lemma group_topics_unknown_category
    (categories : cdict) (topic : sdict) (rest : list sdict)
    (grouped_topics : kdict (list value)) (category_count : kdict Z)
    (category_id id : value) :
  dict_lookup "category_id" topic = Some category_id ->
  hashable category_id = true ->
  kdict_lookup category_id categories = None ->
  dict_lookup "id" topic = Some id ->
  kdict_lookup (VStr "Unknown Category") category_count = None ->
  group_topics categories (topic :: rest) grouped_topics category_count = Raise KeyError.
Proof.
  intros Hc Hh Hk Hid Hcount. simpl. unfold category_name_of, dict_index.
  rewrite Hc. simpl. rewrite Hh, Hk. simpl. rewrite Hid. simpl. rewrite Hcount.
  reflexivity.
Qed.

(** When the exporter returns normally all three files have been written. *)
Lemma save_ok_writes_all_files
    (fl : flags) (categories : cdict) (topics : list sdict) (f : files) (u : unit) :
  save_topics_and_categories fl categories topics = (f, Ok u) ->
  exists txt csv, f = mkfiles (Some txt) (Some csv) (Some topics).
Proof.
  unfold save_topics_and_categories.
  destruct (bind (initial_count categories []) _) as [[g c]|e]; [|discriminate].
  destruct (write_text fl categories topics g c) as [txt [u1|e1]]; [|discriminate].
  destruct (write_csv_rows categories topics [CsvHeader]) as [csv [u2|e2]]; [|discriminate].
  intros H. injection H as <- _. eauto.
Qed.

(** When the grouping loop raises, no file has been opened. *)
Lemma save_grouping_failure_writes_nothing
    (fl : flags) (categories : cdict) (topics : list sdict) (e : exn) :
  (count <- initial_count categories [] ;; group_topics categories topics [] count) = Raise e ->
  save_topics_and_categories fl categories topics = (no_files, Raise e).
Proof. intros H. unfold save_topics_and_categories. rewrite H. reflexivity. Qed.

(** C1. A topic whose [category_id] is not a key of the category map (here
    99, or the "Unknown" default of an entry without [category_id]) resolves
    to the "Unknown Category" label, and the exporter then raises [KeyError]
    in the grouping loop, before any of the three files is opened. *)
Theorem export_raises_on_unlisted_category :
  let categories := [(VInt 1, VStr "General")] in
  exists r r',
    list_all_categories Sample.forum_subcategory = Ok categories /\
    fetch_all_topics Sample.no_flags Sample.forum_subcategory None None None 30 2 =
      Some (Ok [r]) /\
    dict_lookup "category_id" r = Some (VInt 99) /\
    category_name_of categories r = Ok (VStr "Unknown Category") /\
    save_topics_and_categories Sample.no_flags categories [r] = (no_files, Raise KeyError) /\
    fetch_all_topics Sample.no_flags Sample.forum_uncategorized None None None 30 2 =
      Some (Ok [r']) /\
    dict_lookup "category_id" r' = Some (VStr "Unknown") /\
    category_name_of categories r' = Ok (VStr "Unknown Category") /\
    save_topics_and_categories Sample.no_flags categories [r'] = (no_files, Raise KeyError).
Proof.
  intros categories. eexists. eexists. repeat split; reflexivity.
Qed.

(** ** The entry point *)

(** The gate of line 243, as far as it holds: an export that is reported
    has written all three files, from a non-empty topic list and a non-empty
    category map. *)
Lemma main_exported_inv (env : environ) (w : server) (fuel : nat) (f : files) :
  main env w fuel = Some (Exported f) ->
  exists start_date end_date categories topics txt csv,
    list_all_categories w = Ok categories /\
    fetch_all_topics (flags_of env) w start_date end_date (KEYWORD env) 30 fuel =
      Some (Ok topics) /\
    topics <> [] /\ categories <> [] /\
    f = mkfiles (Some txt) (Some csv) (Some topics).
Proof.
  unfold main.
  destruct (bind (date_of (START_DATE env)) _) as [[sd ed]|e]; [|discriminate].
  destruct (list_all_categories w) as [categories|e]; [|discriminate].
  destruct (fetch_all_topics _ _ _ _ _ _ _) as [[topics|e]|] eqn:Ef; try discriminate.
  destruct topics as [|t topics]; [discriminate|].
  destruct categories as [|c categories]; [discriminate|].
  destruct (save_topics_and_categories _ _ _) as [f' [u|e]] eqn:Es; [|discriminate].
  intros H. injection H as <-.
  destruct (save_ok_writes_all_files _ _ _ _ _ Es) as (txt & csv & ->).
  exists sd, ed, (c :: categories), (t :: topics), txt, csv.
  repeat split; try reflexivity; try discriminate. exact Ef.
Qed.

(** With an empty topic list or an empty category map the exporter is not
    called: the run only reports the failure. *)
Lemma main_reports_failure
    (env : environ) (w : server) (fuel : nat)
    (start_date end_date : option datetime) (categories : cdict) (topics : list sdict) :
  date_of (START_DATE env) = Ok start_date ->
  date_of (END_DATE env) = Ok end_date ->
  list_all_categories w = Ok categories ->
  fetch_all_topics (flags_of env) w start_date end_date (KEYWORD env) 30 fuel =
    Some (Ok topics) ->
  topics = [] \/ categories = [] ->
  main env w fuel = Some ReportedFailure.
Proof.
  intros Hs He Hc Hf Hempty. unfold main. rewrite Hs, He. simpl. rewrite Hc, Hf.
  destruct Hempty as [-> | ->]; [reflexivity|]. destruct topics; reflexivity.
Qed.

(** A failed category request yields the empty map. *)
Lemma list_all_categories_failure (w : server) :
  status_code (get_categories w) <> 200 -> list_all_categories w = Ok [].
Proof.
  intros H. unfold list_all_categories.
  destruct (Z.eqb_spec (status_code (get_categories w)) 200); [contradiction|reflexivity].
Qed.

(** C10. A run that ends with one topic and one category, both lists
    non-empty, writes no file: the topic's category 99 is not in the map and
    the exporter raises [KeyError] while grouping. *)
Theorem export_gate_crashes_on_unlisted_category :
  exists r c,
    list_all_categories Sample.forum_subcategory = Ok [c] /\
    fetch_all_topics (flags_of Sample.env_plain) Sample.forum_subcategory None None
      (KEYWORD Sample.env_plain) 30 2 = Some (Ok [r]) /\
    main Sample.env_plain Sample.forum_subcategory 2 = Some (Crashed no_files KeyError).
Proof.
  eexists. eexists. repeat split; reflexivity.
Qed.

(** * Further properties of the code *)

(** ** What [strptime] returns *)

Lemma in_range_bounds (lo hi : Z) (o : option Z) (v : Z) :
  in_range lo hi o = Some v -> lo <= v <= hi.
Proof.
  destruct o as [x|]; simpl; [|discriminate].
  destruct (Z.leb_spec lo x), (Z.leb_spec x hi); simpl; try discriminate.
  intros E. injection E as <-. lia.
Qed.

Lemma short_field_bounds (lo hi : Z) (f : string) (v : Z) :
  short_field lo hi f = Some v -> lo <= v <= hi.
Proof.
  unfold short_field. destruct (Nat.leb (String.length f) 2); [|discriminate].
  apply in_range_bounds.
Qed.

Lemma digit_of_nonneg (c : ascii) (d : Z) : digit_of c = Some d -> 0 <= d.
Proof.
  unfold digit_of.
  destruct (Nat.leb 48 (nat_of_ascii c)) eqn:E; simpl; [|discriminate].
  destruct (Nat.leb (nat_of_ascii c) 57); [|discriminate].
  apply Nat.leb_le in E. intros H. injection H as <-. lia.
Qed.

Lemma digits_from_nonneg (s : string) :
  forall acc v, 0 <= acc -> digits_from acc s = Some v -> 0 <= v.
Proof.
  induction s as [|c s IH]; intros acc v Hacc; simpl.
  - intros H. injection H as <-. exact Hacc.
  - destruct (digit_of c) as [d|] eqn:Ed; [|discriminate].
    intros E. pose proof (digit_of_nonneg _ _ Ed).
    apply (IH (10 * acc + d) v); [lia|exact E].
Qed.

Lemma pad_zeros_nonneg (n : nat) : forall v, 0 <= v -> 0 <= pad_zeros n v.
Proof.
  induction n as [|n IH]; intros v Hv; simpl; [exact Hv|].
  apply (IH (10 * v)). lia.
Qed.

Lemma field_f_nonneg (f : string) (v : Z) : field_f f = Some v -> 0 <= v.
Proof.
  unfold field_f. destruct (Nat.leb (String.length f) 6); [|discriminate].
  destruct (digits f) as [x|] eqn:Ed; [|discriminate].
  intros H. injection H as <-. apply pad_zeros_nonneg.
  destruct f; simpl in Ed; [discriminate|].
  apply (digits_from_nonneg (String a f) 0 x); [lia|exact Ed].
Qed.

Lemma make_datetime_fields (y m d H M S f : Z) (t : datetime) :
  make_datetime y m d H M S f = Some t -> t = mkdt y m d H M S f.
Proof.
  unfold make_datetime.
  destruct ((1 <=? y) && (1 <=? d) && (d <=? days_in_month y m) && (S <=? 59));
    [|discriminate].
  intros E. injection E as <-. reflexivity.
Qed.

Ltac step_obind :=
  match goal with
  | |- context [obind ?o _] =>
      let E := fresh "E" in
      destruct o eqn:E; cbn [obind]; [|discriminate]
  end.

(** A timestamp parsed from the wire never has a negative time of day. *)
Lemma strptime_wire_time_nonneg (s : string) (d : datetime) :
  strptime_wire s = Some d ->
  0 <= hour d /\ 0 <= minute d /\ 0 <= second d /\ 0 <= microsecond d.
Proof.
  unfold strptime_wire. do 7 step_obind.
  match goal with |- context [match ?x with EmptyString => _ | String _ _ => _ end] =>
    destruct x; [|discriminate] end.
  do 7 step_obind.
  intros H. apply make_datetime_fields in H. subst d. cbn [hour minute second microsecond].
  repeat match goal with
         | E : short_field _ _ _ = Some _ |- _ => apply short_field_bounds in E
         | E : field_f _ = Some _ |- _ => apply field_f_nonneg in E
         end.
  unfold field_H, field_M, field_S in *.
  repeat match goal with
         | E : short_field _ _ _ = Some _ |- _ => apply short_field_bounds in E
         end.
  lia.
Qed.

(** A date parsed with ["%Y-%m-%d"] is the first instant of its day. *)
Lemma strptime_date_midnight (s : string) (d : datetime) :
  strptime_date s = Some d -> at_midnight d.
Proof.
  unfold strptime_date. do 5 step_obind.
  intros H. apply make_datetime_fields in H. subst d. repeat split.
Qed.

Lemma date_of_midnight (v : option string) (d : datetime) :
  date_of v = Ok (Some d) -> at_midnight d.
Proof.
  unfold date_of. destruct v as [s|]; [|discriminate].
  destruct (String.eqb s ""); [discriminate|].
  destruct (strptime_date s) as [d'|] eqn:E; [|discriminate].
  intros H. injection H as <-. apply (strptime_date_midnight _ _ E).
Qed.

(** ** The two ends of the date range *)

Lemma same_day_not_before_midnight (d s : datetime) :
  same_day d s -> at_midnight s ->
  0 <= hour d -> 0 <= minute d -> 0 <= second d -> 0 <= microsecond d ->
  dt_ltb d s = false.
Proof.
  intros (Hy & Hm & Hd) (HH & HM & HS & Hf) H1 H2 H3 H4.
  unfold dt_ltb, dt_fields. cbn [lex_ltb].
  rewrite Hy, Hm, Hd, HH, HM, HS, Hf.
  rewrite !Z.ltb_irrefl, !Z.eqb_refl. cbn [orb andb].
  destruct (Z.ltb_spec (hour d) 0); [lia|].
  destruct (Z.ltb_spec (minute d) 0); [lia|].
  destruct (Z.ltb_spec (second d) 0); [lia|].
  destruct (Z.ltb_spec (microsecond d) 0); [lia|].
  cbn [orb]. rewrite !andb_false_r. reflexivity.
Qed.

Lemma same_day_after_midnight (d e : datetime) :
  same_day d e -> at_midnight e ->
  0 <= hour d -> 0 <= minute d -> 0 <= second d -> 0 <= microsecond d ->
  ~ at_midnight d ->
  dt_gtb d e = true.
Proof.
  intros (Hy & Hm & Hd) (HH & HM & HS & Hf) H1 H2 H3 H4 Hnot.
  unfold dt_gtb, dt_ltb, dt_fields. cbn [lex_ltb].
  rewrite Hy, Hm, Hd, HH, HM, HS, Hf.
  rewrite !Z.ltb_irrefl, !Z.eqb_refl. cbn [orb andb].
  destruct (Z.ltb_spec 0 (hour d)); [reflexivity|].
  destruct (Z.eqb_spec 0 (hour d)); [|lia]. cbn [orb andb].
  destruct (Z.ltb_spec 0 (minute d)); [reflexivity|].
  destruct (Z.eqb_spec 0 (minute d)); [|lia]. cbn [orb andb].
  destruct (Z.ltb_spec 0 (second d)); [reflexivity|].
  destruct (Z.eqb_spec 0 (second d)); [|lia]. cbn [orb andb].
  destruct (Z.ltb_spec 0 (microsecond d)); [reflexivity|].
  exfalso. apply Hnot. unfold at_midnight. lia.
Qed.

(** X1. The start bound includes its whole day: with START_DATE parsed
    from a date, a topic created at any time of that day is not skipped by
    the start test of line 123. *)
Theorem start_date_includes_its_day
    (START : option string) (s d : datetime) (str : string) :
  date_of START = Ok (Some s) ->
  strptime_wire str = Some d ->
  same_day d s ->
  before_start (Some s) d = false.
Proof.
  intros Hs Hd Hday.
  destruct (strptime_wire_time_nonneg _ _ Hd) as (H1 & H2 & H3 & H4).
  apply same_day_not_before_midnight; auto.
  apply (date_of_midnight _ _ Hs).
Qed.

Lemma start_date_includes_its_day_witness :
  before_start (Some Sample.jan_1) (mkdt 2024 1 1 23 59 59 999999) = false.
Proof.
  apply (start_date_includes_its_day (Some "2024-01-01") Sample.jan_1
           (mkdt 2024 1 1 23 59 59 999999) "2024-01-01T23:59:59.999999Z").
  - reflexivity.
  - reflexivity.
  - repeat split.
Defined.

(** X2. The end bound excludes its own day: with END_DATE parsed from a
    date, every topic created on that day at any time other than midnight
    exactly is skipped by the end test of line 125, whatever the flags, the
    keyword and the other fields of the topic. *)
Theorem end_date_excludes_its_day
    (fl : flags) (w : server) (start_date : option datetime) (keyword : option string)
    (END : option string) (e d : datetime) (topic : sdict) (str : string) :
  date_of END = Ok (Some e) ->
  dict_lookup "created_at" topic = Some (VStr str) ->
  strptime_wire str = Some d ->
  same_day d e ->
  ~ at_midnight d ->
  process_topic fl w start_date (Some e) keyword (VDict topic) = Ok None.
Proof.
  intros He Hc Hd Hday Hnot.
  destruct (strptime_wire_time_nonneg _ _ Hd) as (H1 & H2 & H3 & H4).
  assert (Ha : dt_gtb d e = true).
  { apply same_day_after_midnight; auto. apply (date_of_midnight _ _ He). }
  simpl. unfold dict_index at 1. rewrite Hc. simpl. rewrite Hd. simpl. rewrite Ha.
  destruct (before_start start_date d); reflexivity.
Qed.

Lemma end_date_excludes_its_day_witness :
  process_topic Sample.no_flags Sample.forum (Some Sample.jan_1) (Some Sample.jan_31) None
    Sample.t_last_day = Ok None.
Proof.
  apply (end_date_excludes_its_day Sample.no_flags Sample.forum (Some Sample.jan_1) None
           (Some "2024-01-31") Sample.jan_31 (mkdt 2024 1 31 10 0 0 0)
           (Sample.fields 106 "Posted on the last day" "2024-01-31T10:00:00.000Z" 1)
           "2024-01-31T10:00:00.000Z").
  - reflexivity.
  - reflexivity.
  - reflexivity.
  - repeat split.
  - intros (H & _). discriminate H.
Defined.

(** ** What enrichment leaves alone *)

Lemma base_record_inv (topic : sdict) (d : datetime) (b : sdict) :
  base_record topic d = Ok b ->
  exists id title posts_count,
    dict_lookup "id" topic = Some id /\
    dict_lookup "title" topic = Some title /\
    dict_lookup "posts_count" topic = Some posts_count /\
    b = [("id", id);
         ("title", title);
         ("category_id", dict_get topic "category_id" (VStr "Unknown"));
         ("created_at", VDatetime d);
         ("posts_count", posts_count);
         ("views_count", dict_get topic "views_count" (VInt 0));
         ("user", dict_get topic "last_poster_username" (VStr "Unknown"))].
Proof.
  unfold base_record, dict_index.
  destruct (dict_lookup "id" topic) as [id|]; simpl; [|discriminate].
  destruct (dict_lookup "title" topic) as [title|]; simpl; [|discriminate].
  destruct (dict_lookup "posts_count" topic) as [pc|]; simpl; [|discriminate].
  intros H. injection H as <-. exists id, title, pc. auto.
Qed.

(** Whatever its status, a user fetch that returns gives no key or three. *)
Lemma fetch_user_details_cases (w : server) (user_id : value) (ud : sdict) :
  fetch_user_details w user_id = Ok ud ->
  ud = [] \/
  exists username created_at post_count,
    ud = [("username", username); ("created_at", created_at); ("post_count", post_count)].
Proof.
  unfold fetch_user_details.
  destruct (status_code (get_user w user_id) =? 200).
  - destruct (json (get_user w user_id)) as [body|]; simpl; [|discriminate].
    destruct (subscript body "user") as [user_data|]; simpl; [|discriminate].
    destruct (subscript user_data "username") as [u|]; simpl; [|discriminate].
    destruct (subscript user_data "created_at") as [c|]; simpl; [|discriminate].
    destruct (subscript user_data "post_count") as [n|]; simpl; [|discriminate].
    intros H. injection H as <-. right. eauto.
  - intros H. injection H as <-. left. reflexivity.
Qed.

(** The merge changes no key other than the three of the user details. *)
Lemma merge_user_details_frame
    (fl : flags) (w : server) (topic b b' : sdict) (k : string) :
  merge_user_details fl w topic b = Ok b' ->
  k <> "username" -> k <> "created_at" -> k <> "post_count" ->
  dict_lookup k b' = dict_lookup k b.
Proof.
  unfold merge_user_details. intros H H1 H2 H3.
  destruct (FETCH_USER_DETAILS fl && truthy (dict_get topic "last_poster_user_id" VNone)).
  - destruct (dict_index topic "last_poster_user_id") as [uid|]; simpl in H; [|discriminate].
    destruct (fetch_user_details w uid) as [ud|] eqn:Eud; simpl in H; [|discriminate].
    injection H as <-.
    destruct (fetch_user_details_cases _ _ _ Eud) as [->|(u & c & n & ->)]; [reflexivity|].
    unfold dict_update. simpl.
    rewrite !dict_lookup_set_other by assumption. reflexivity.
  - injection H as <-. reflexivity.
Qed.

(** The merge never removes [created_at]. *)
Lemma merge_user_details_keeps_created_at
    (fl : flags) (w : server) (topic b b' : sdict) (v : value) :
  merge_user_details fl w topic b = Ok b' ->
  dict_lookup "created_at" b = Some v ->
  dict_lookup "created_at" b' <> None.
Proof.
  unfold merge_user_details. intros H Hb.
  destruct (FETCH_USER_DETAILS fl && truthy (dict_get topic "last_poster_user_id" VNone)).
  - destruct (dict_index topic "last_poster_user_id") as [uid|]; simpl in H; [|discriminate].
    destruct (fetch_user_details w uid) as [ud|] eqn:Eud; simpl in H; [|discriminate].
    injection H as <-.
    destruct (fetch_user_details_cases _ _ _ Eud) as [->|(u & c & n & ->)].
    + simpl. rewrite Hb. discriminate.
    + unfold dict_update. simpl.
      rewrite dict_lookup_set_other by discriminate.
      rewrite dict_lookup_set_same. discriminate.
  - injection H as <-. rewrite Hb. discriminate.
Qed.

(** The fields of a record, read off the loop body. *)
Lemma process_topic_fields
    (fl : flags) (w : server) (start_date end_date : option datetime)
    (keyword : option string) (topic r : sdict) :
  process_topic fl w start_date end_date keyword (VDict topic) = Ok (Some r) ->
  dict_lookup "id" r = dict_lookup "id" topic /\
  dict_lookup "title" r = dict_lookup "title" topic /\
  dict_lookup "posts_count" r = dict_lookup "posts_count" topic /\
  dict_lookup "category_id" r = Some (dict_get topic "category_id" (VStr "Unknown")) /\
  dict_lookup "views_count" r = Some (dict_get topic "views_count" (VInt 0)) /\
  dict_lookup "user" r = Some (dict_get topic "last_poster_username" (VStr "Unknown")) /\
  has_base_keys r.
Proof.
  intros Ht.
  destruct (process_topic_inv _ _ _ _ _ _ _ Ht)
    as (topic' & str & d & b & b' & Heq & _ & _ & _ & _ & _ & Hb0 & Hm & ->).
  injection Heq as <-.
  destruct (base_record_inv _ _ _ Hb0) as (id & title & pc & Hid & Htitle & Hpc & Hb).
  assert (F : forall k, k <> "username" -> k <> "created_at" -> k <> "post_count" ->
                        k <> "description" -> k <> "last_posted_at" ->
                        dict_lookup k
                          (copy_optional (FETCH_LAST_POSTED_AT fl) "last_posted_at" topic
                             (copy_optional (FETCH_TOPIC_DESCRIPTION fl) "description" topic b'))
                        = dict_lookup k b).
  { intros k H1 H2 H3 H4 H5. rewrite !copy_optional_other by assumption.
    apply (merge_user_details_frame _ _ _ _ _ _ Hm); assumption. }
  rewrite !F by discriminate. rewrite Hid, Htitle, Hpc. subst b.
  repeat (split; [reflexivity|]).
  intros k Hk. simpl in Hk.
  destruct Hk as [<-|[<-|[<-|[<-|[<-|[<-|[<-|[]]]]]]]];
    try (rewrite F by discriminate; discriminate).
  rewrite !copy_optional_other by discriminate.
  eapply merge_user_details_keeps_created_at; [exact Hm|reflexivity].
Qed.

(** X3. Whatever the flags and whatever the user endpoint returns, a record
    carries the listing's [id], [title] and [posts_count] unchanged and
    [category_id], [views_count] and [user] with their defaults "Unknown",
    0 and "Unknown" when the listing lacks them; it has all seven base keys. *)
Theorem record_keeps_listing_fields
    (fl : flags) (w : server) (start_date end_date : option datetime)
    (keyword : option string) (topic r : sdict) :
  process_topic fl w start_date end_date keyword (VDict topic) = Ok (Some r) ->
  dict_lookup "id" r = dict_lookup "id" topic /\
  dict_lookup "title" r = dict_lookup "title" topic /\
  dict_lookup "posts_count" r = dict_lookup "posts_count" topic /\
  dict_lookup "category_id" r = Some (dict_get topic "category_id" (VStr "Unknown")) /\
  dict_lookup "views_count" r = Some (dict_get topic "views_count" (VInt 0)) /\
  dict_lookup "user" r = Some (dict_get topic "last_poster_username" (VStr "Unknown")) /\
  has_base_keys r.
Proof. apply process_topic_fields. Qed.

Lemma record_keeps_listing_fields_witness :
  exists r,
    process_topic Sample.only_user_details Sample.forum_with_users None None None
      Sample.t_uncategorized = Ok (Some r) /\
    dict_lookup "id" r = Some (VInt 107) /\
    dict_lookup "category_id" r = Some (VStr "Unknown") /\
    dict_lookup "views_count" r = Some (VInt 0) /\
    dict_lookup "user" r = Some (VStr "Unknown") /\
    has_base_keys r.
Proof.
  eexists. split; [reflexivity|].
  destruct (record_keeps_listing_fields Sample.only_user_details Sample.forum_with_users
              None None None
              [("id", VInt 107); ("title", VStr "No category on the wire");
               ("created_at", VStr "2024-01-23T08:00:00.000Z"); ("posts_count", VInt 1)]
              _ eq_refl) as (H1 & _ & _ & H4 & H5 & H6 & H7).
  repeat split; assumption.
Defined.

(** ** Exceptions inside the loop body *)

(** X4. A topic that passes the filters but lacks [id], [title] or
    [posts_count] raises [KeyError] in the dict literal of lines 130-138;
    nothing is defaulted for these three keys. *)
Theorem missing_required_key_raises
    (fl : flags) (w : server) (start_date end_date : option datetime)
    (keyword : option string) (topic : sdict) (str : string) (d : datetime) :
  dict_lookup "created_at" topic = Some (VStr str) ->
  strptime_wire str = Some d ->
  before_start start_date d = false ->
  after_end end_date d = false ->
  keyword_misses keyword topic = Ok false ->
  dict_lookup "id" topic = None \/
  dict_lookup "title" topic = None \/
  dict_lookup "posts_count" topic = None ->
  process_topic fl w start_date end_date keyword (VDict topic) = Raise KeyError.
Proof.
  intros Hc Hd Hb Ha Hk Hmissing. simpl. unfold dict_index at 1.
  rewrite Hc. simpl. rewrite Hd. simpl. rewrite Hb, Ha, Hk. simpl.
  unfold base_record, dict_index.
  destruct Hmissing as [H|[H|H]].
  - rewrite H. reflexivity.
  - destruct (dict_lookup "id" topic); simpl; [|reflexivity]. rewrite H. reflexivity.
  - destruct (dict_lookup "id" topic); simpl; [|reflexivity].
    destruct (dict_lookup "title" topic); simpl; [|reflexivity].
    rewrite H. reflexivity.
Qed.

Lemma missing_required_key_witness :
  process_topic Sample.no_flags Sample.forum None None None
    (VDict Cases.fields_no_posts_count) = Raise KeyError.
Proof.
  apply (missing_required_key_raises Sample.no_flags Sample.forum None None None
           Cases.fields_no_posts_count "2024-01-24T08:00:00.000Z" (mkdt 2024 1 24 8 0 0 0));
    try reflexivity.
  right. right. reflexivity.
Defined.

(** X5. The tolerance for a failed user fetch covers the status only: when
    the user endpoint answers 200 with a body that has no usable [user]
    entry, the exception of the subscript is not caught and the topic, and
    with it the page, raises. *)
Theorem malformed_user_body_raises
    (fl : flags) (w : server) (start_date end_date : option datetime)
    (keyword : option string) (topic : sdict) (str : string) (d : datetime)
    (user_id body : value) (b : sdict) (e : exn)
    (pre post : list value) (topics : list sdict) :
  FETCH_USER_DETAILS fl = true ->
  dict_lookup "last_poster_user_id" topic = Some user_id ->
  truthy user_id = true ->
  status_code (get_user w user_id) = 200 ->
  json (get_user w user_id) = Ok body ->
  subscript body "user" = Raise e ->
  dict_lookup "created_at" topic = Some (VStr str) ->
  strptime_wire str = Some d ->
  before_start start_date d = false ->
  after_end end_date d = false ->
  keyword_misses keyword topic = Ok false ->
  base_record topic d = Ok b ->
  process_topic fl w start_date end_date keyword (VDict topic) = Raise e /\
  exists e', process_page fl w start_date end_date keyword
               (pre ++ VDict topic :: post) topics = Raise e'.
Proof.
  intros Hflag Hid Htruthy Hs Hj Hu Hc Hd Hb Ha Hk Hb0.
  assert (Ht : process_topic fl w start_date end_date keyword (VDict topic) = Raise e).
  { simpl. unfold dict_index at 1. rewrite Hc. simpl. rewrite Hd. simpl.
    rewrite Hb, Ha, Hk. simpl. rewrite Hb0. simpl.
    unfold merge_user_details, dict_get, dict_index, fetch_user_details.
    rewrite Hflag, Hid, Htruthy. simpl. rewrite Hs, Hj. simpl. rewrite Hu. reflexivity. }
  split; [exact Ht|].
  destruct (process_page_raises fl w start_date end_date keyword pre post _ _ Ht topics)
    as (e' & He' & _).
  exists e'. exact He'.
Qed.

Lemma malformed_user_body_witness :
  process_topic Sample.only_user_details Cases.forum_odd_users None None None Sample.t1 =
    Raise KeyError /\
  exists e', process_page Sample.only_user_details Cases.forum_odd_users None None None
               ([Sample.t2] ++ Sample.t1 :: [Sample.t3]) [] = Raise e'.
Proof.
  apply (malformed_user_body_raises Sample.only_user_details Cases.forum_odd_users
           None None None
           (Sample.fields 101 "Welcome to the forum" "2024-01-10T09:30:00.000Z" 1)
           "2024-01-10T09:30:00.000Z" (mkdt 2024 1 10 9 30 0 0)
           (VInt 7) (VDict [("errors", VList [])]) (hd [] (Sample.recs 0)) KeyError
           [Sample.t2] [Sample.t3] []); reflexivity.
Defined.

(** ** The keyword filter *)

Section KeywordFacts.

Variable fl : flags.
Variable w : server.
Variables start_date end_date : option datetime.
Variable page_size : Z.

(** The result depends on the keyword only through [keyword_misses]. *)
Lemma fetch_all_topics_keyword_ext (k1 k2 : option string) :
  (forall topic, keyword_misses k1 topic = keyword_misses k2 topic) ->
  forall fuel,
    fetch_all_topics fl w start_date end_date k1 page_size fuel =
    fetch_all_topics fl w start_date end_date k2 page_size fuel.
Proof.
  intros Hext.
  assert (Ht : forall t, process_topic fl w start_date end_date k1 t =
                         process_topic fl w start_date end_date k2 t).
  { intros [| | | | |topic|]; try reflexivity. simpl. rewrite Hext. reflexivity. }
  assert (Hp : forall items acc, process_page fl w start_date end_date k1 items acc =
                                 process_page fl w start_date end_date k2 items acc).
  { induction items as [|t items IH]; intros acc; simpl; [reflexivity|].
    rewrite Ht. destruct (process_topic fl w start_date end_date k2 t) as [[r|]|e];
      simpl; auto. }
  unfold fetch_all_topics. generalize 0%nat, (@nil sdict).
  intros p acc fuel. revert p acc.
  induction fuel as [|fuel IH]; intros p acc; simpl; [reflexivity|].
  destruct (negb (status_code (get_latest w p page_size) =? 200)); [reflexivity|].
  destruct (bind (json (get_latest w p page_size)) _) as [tl|e]; [|reflexivity].
  destruct (negb (truthy tl)); [reflexivity|].
  destruct (iterate tl) as [items|e]; simpl; [|reflexivity].
  rewrite Hp. destruct (process_page fl w start_date end_date k2 items acc); auto.
Qed.

End KeywordFacts.

(** X6. An empty KEYWORD filters nothing: the result is the one obtained
    without a keyword. *)
Theorem empty_keyword_is_no_keyword
    (fl : flags) (w : server) (start_date end_date : option datetime)
    (page_size : Z) (fuel : nat) :
  fetch_all_topics fl w start_date end_date (Some "") page_size fuel =
  fetch_all_topics fl w start_date end_date None page_size fuel.
Proof.
  apply fetch_all_topics_keyword_ext. intros topic. reflexivity.
Qed.

(** X7. The keyword is matched without regard to the case of the keyword:
    two non-empty keywords with the same lower-case form select the same
    topics. *)
Theorem keyword_case_is_ignored
    (fl : flags) (w : server) (start_date end_date : option datetime)
    (page_size : Z) (k1 k2 : string) (fuel : nat) :
  k1 <> "" -> k2 <> "" -> lower k1 = lower k2 ->
  fetch_all_topics fl w start_date end_date (Some k1) page_size fuel =
  fetch_all_topics fl w start_date end_date (Some k2) page_size fuel.
Proof.
  intros H1 H2 Hl. apply fetch_all_topics_keyword_ext. intros topic.
  unfold keyword_misses.
  destruct (String.eqb_spec k1 ""); [contradiction|].
  destruct (String.eqb_spec k2 ""); [contradiction|].
  rewrite Hl. reflexivity.
Qed.

Lemma keyword_case_witness :
  fetch_all_topics Sample.no_flags Sample.forum None None (Some "RELEASE") 30 3 =
  fetch_all_topics Sample.no_flags Sample.forum None None (Some "release") 30 3.
Proof.
  apply (keyword_case_is_ignored Sample.no_flags Sample.forum None None 30
           "RELEASE" "release" 3).
  - discriminate.
  - discriminate.
  - reflexivity.
Defined.

(** X8. With a non-empty keyword, every returned record has a string title
    that contains the keyword, both taken in lower case; the title is the
    listing's, untouched by enrichment. *)
Theorem keyword_filter_sound
    (fl : flags) (w : server) (start_date end_date : option datetime)
    (k : string) (page_size : Z) (fuel : nat) (out : list sdict) (r : sdict) :
  k <> "" ->
  fetch_all_topics fl w start_date end_date (Some k) page_size fuel = Some (Ok out) ->
  In r out ->
  exists title,
    dict_lookup "title" r = Some (VStr title) /\
    str_contains (lower k) (lower title) = true.
Proof.
  intros Hk Hfetch Hin. unfold fetch_all_topics in Hfetch.
  destruct (fetch_loop_sound _ _ _ _ _ _ _ _ _ _ Hfetch r Hin) as [[]|(p & t & _ & Ht)].
  destruct (process_topic_inv _ _ _ _ _ _ _ Ht)
    as (topic & str & d & b & b' & -> & _ & _ & _ & _ & Hmiss & _ & _ & _).
  destruct (process_topic_fields _ _ _ _ _ _ _ Ht) as (_ & Htitle & _).
  unfold keyword_misses in Hmiss.
  destruct (String.eqb_spec k ""); [contradiction|].
  unfold dict_index in Hmiss.
  destruct (dict_lookup "title" topic) as [title|]; simpl in Hmiss; [|discriminate].
  destruct title as [| | |title| | |]; try discriminate.
  exists title. split; [exact Htitle|].
  injection Hmiss as Hmiss. apply negb_false_iff in Hmiss. exact Hmiss.
Qed.

Lemma keyword_filter_witness :
  exists title,
    dict_lookup "title" (hd [] (tl (Sample.recs 0))) = Some (VStr title) /\
    str_contains (lower "RELEASE") (lower title) = true.
Proof.
  apply (keyword_filter_sound Sample.no_flags Sample.forum None None "RELEASE" 30 3
           [hd [] (tl (Sample.recs 0))]).
  - discriminate.
  - reflexivity.
  - left. reflexivity.
Defined.

(** ** The loop and odd listing bodies *)

(** X9. The loop has no page limit: against a listing in which every page
    delivers topics that are processed normally, it never ends, whatever the
    number of turns allowed. *)
Theorem endless_listing_never_returns
    (fl : flags) (w : server) (start_date end_date : option datetime)
    (keyword : option string) (page_size : Z)
    (items : nat -> list value) (recs : nat -> list sdict) :
  (forall n, pages_go_through fl w start_date end_date keyword page_size items recs 0 n) ->
  forall fuel,
    fetch_all_topics fl w start_date end_date keyword page_size fuel = None.
Proof.
  intros Hall fuel. unfold fetch_all_topics.
  replace fuel with (fuel + 0)%nat by lia.
  rewrite (fetch_loop_pages _ _ _ _ _ _ items recs fuel 0%nat 0%nat [] (Hall fuel)).
  reflexivity.
Qed.

Lemma endless_listing_witness :
  fetch_all_topics Sample.no_flags Cases.forum_endless None None None 30 1000 = None.
Proof.
  apply (endless_listing_never_returns Sample.no_flags Cases.forum_endless None None None 30
           (fun _ => [Sample.t1]) (fun _ => [hd [] (Sample.recs 0)])).
  intros n i Hi.
  split; [split; [reflexivity|eexists; split; reflexivity]
         |split; [discriminate|reflexivity]].
Defined.

(** X10. A successful listing response whose body is an object without
    [topic_list], or whose [topic_list] object has no [topics] or a null
    [topics], counts as an empty page: the loop ends and returns what it has
    collected. *)
Theorem missing_topic_list_ends_loop
    (fl : flags) (w : server) (start_date end_date : option datetime)
    (keyword : option string) (page_size : Z)
    (fuel p : nat) (topics : list sdict) (body : sdict) :
  status_code (get_latest w p page_size) = 200 ->
  json (get_latest w p page_size) = Ok (VDict body) ->
  dict_lookup "topic_list" body = None \/
  (exists tl, dict_lookup "topic_list" body = Some (VDict tl) /\
              (dict_lookup "topics" tl = None \/ dict_lookup "topics" tl = Some VNone)) ->
  fetch_loop fl w start_date end_date keyword page_size (S fuel) p topics =
  Some (Ok topics).
Proof.
  intros Hs Hj Hbody. apply fetch_loop_empty.
  split; [exact Hs|]. exists (VDict body).
  destruct Hbody as [H|(tl & Htl & [H|H])].
  - exists (VList []). repeat split; [exact Hj|].
    unfold topic_list_of. simpl. unfold dict_get. rewrite H. reflexivity.
  - exists (VList []). repeat split; [exact Hj|].
    unfold topic_list_of. simpl. unfold dict_get. rewrite Htl. simpl.
    unfold dict_get. rewrite H. reflexivity.
  - exists VNone. repeat split; [exact Hj|].
    unfold topic_list_of. simpl. unfold dict_get. rewrite Htl. simpl.
    unfold dict_get. rewrite H. reflexivity.
Qed.

Lemma missing_topic_list_witness :
  fetch_loop Sample.no_flags Cases.forum_no_topic_list None None None 30 1 0 [] =
  Some (Ok []).
Proof.
  apply (missing_topic_list_ends_loop Sample.no_flags Cases.forum_no_topic_list
           None None None 30 0 0 [] [("users", VList [])]).
  - reflexivity.
  - reflexivity.
  - left. reflexivity.
Defined.

(** X11. A successful listing response whose body is not an object (a JSON
    array, string, number or null) raises [AttributeError] at line 115; the
    topics collected from earlier pages are not returned. *)
Theorem non_object_body_raises
    (fl : flags) (w : server) (start_date end_date : option datetime)
    (keyword : option string) (page_size : Z)
    (fuel p : nat) (topics : list sdict) (body : value) :
  status_code (get_latest w p page_size) = 200 ->
  json (get_latest w p page_size) = Ok body ->
  (forall d, body <> VDict d) ->
  fetch_loop fl w start_date end_date keyword page_size (S fuel) p topics =
  Some (Raise AttributeError).
Proof.
  intros Hs Hj Hbody. simpl. rewrite Hs, Hj. simpl.
  destruct body as [| | | | |d|]; try reflexivity.
  exfalso. apply (Hbody d). reflexivity.
Qed.

Lemma non_object_body_witness :
  fetch_loop Sample.no_flags
    (mkserver Sample.categories_ok (fun _ _ => mkresponse 200 (Ok (VList [])))
              (fun _ => Sample.failure 404))
    None None None 30 1 0 [] = Some (Raise AttributeError).
Proof.
  apply (non_object_body_raises Sample.no_flags _ None None None 30 0 0 [] (VList [])).
  - reflexivity.
  - reflexivity.
  - discriminate.
Defined.

(** ** Keyed dicts *)

Lemma key_eqb_refl (v : value) : hashable v = true -> key_eqb v v = true.
Proof.
  destruct v as [|b|z|s|l|d|t]; simpl; try discriminate; intros _.
  - reflexivity.
  - apply Bool.eqb_reflx.
  - apply Z.eqb_refl.
  - apply String.eqb_refl.
  - unfold dt_eqb. rewrite !Z.eqb_refl. reflexivity.
Qed.

Lemma kdict_lookup_set_same {V} (k : value) (v : V) (d : kdict V) :
  key_eqb k k = true -> kdict_lookup k (kdict_set k v d) = Some v.
Proof.
  intros Hk. induction d as [|[k' v'] d IH]; simpl.
  - rewrite Hk. reflexivity.
  - destruct (key_eqb k k') eqn:E; simpl; rewrite E; [reflexivity|exact IH].
Qed.



Lemma kdict_lookup_in {V} (k : value) (v : V) (d : kdict V) :
  kdict_lookup k d = Some v -> exists k', In (k', v) d.
Proof.
  induction d as [|[k0 v0] d IH]; simpl; [discriminate|].
  destruct (key_eqb k k0).
  - intros H. injection H as <-. exists k0. left. reflexivity.
  - intros H. destruct (IH H) as (k' & Hk'). exists k'. right. exact Hk'.
Qed.

(** ** The exporter on resolvable input *)


Lemma has_base_keys_index (r : sdict) (k : string) :
  has_base_keys r -> In k base_keys -> exists v, dict_index r k = Ok v.
Proof.
  intros Hr Hk. unfold dict_index. specialize (Hr k Hk).
  destruct (dict_lookup k r) as [v|]; [eauto|contradiction].
Qed.

Lemma category_name_of_resolves (categories : cdict) (topic : sdict) :
  resolves categories topic ->
  exists id name, category_name_of categories topic = Ok name /\ In (id, name) categories.
Proof.
  intros (cid & name & Hc & Hh & Hl). unfold category_name_of, dict_index.
  rewrite Hc. simpl. rewrite Hh, Hl.
  destruct (kdict_lookup_in _ _ _ Hl) as (id & Hin). exists id, name. auto.
Qed.


Lemma topic_line_ok (categories : cdict) (t : sdict) :
  has_base_keys t -> resolves categories t ->
  exists line, topic_line categories t = Ok line.
Proof.
  intros Hkeys Hres. unfold topic_line.
  destruct (category_name_of_resolves _ _ Hres) as (cid & name & -> & _). simpl.
  destruct (has_base_keys_index t "id" Hkeys ltac:(simpl; tauto)) as (v1 & ->). simpl.
  destruct (has_base_keys_index t "title" Hkeys ltac:(simpl; tauto)) as (v2 & ->). simpl.
  destruct (has_base_keys_index t "posts_count" Hkeys ltac:(simpl; tauto)) as (v3 & ->). simpl.
  destruct (has_base_keys_index t "views_count" Hkeys ltac:(simpl; tauto)) as (v4 & ->). simpl.
  destruct (has_base_keys_index t "user" Hkeys ltac:(simpl; tauto)) as (v5 & ->). simpl.
  destruct (has_base_keys_index t "created_at" Hkeys ltac:(simpl; tauto)) as (v6 & ->). simpl.
  eauto.
Qed.

Lemma csv_row_of_ok (categories : cdict) (t : sdict) :
  has_base_keys t -> resolves categories t ->
  exists row, csv_row_of categories t = Ok row.
Proof.
  intros Hkeys Hres. unfold csv_row_of.
  destruct (category_name_of_resolves _ _ Hres) as (cid & name & -> & _). simpl.
  destruct (has_base_keys_index t "id" Hkeys ltac:(simpl; tauto)) as (v1 & ->). simpl.
  destruct (has_base_keys_index t "title" Hkeys ltac:(simpl; tauto)) as (v2 & ->). simpl.
  destruct (has_base_keys_index t "posts_count" Hkeys ltac:(simpl; tauto)) as (v3 & ->). simpl.
  destruct (has_base_keys_index t "views_count" Hkeys ltac:(simpl; tauto)) as (v4 & ->). simpl.
  destruct (has_base_keys_index t "user" Hkeys ltac:(simpl; tauto)) as (v5 & ->). simpl.
  destruct (has_base_keys_index t "created_at" Hkeys ltac:(simpl; tauto)) as (v6 & ->). simpl.
  eauto.
Qed.











(** ** From the fetch to the export *)

Lemma fetch_all_topics_base_keys
    (fl : flags) (w : server) (start_date end_date : option datetime)
    (keyword : option string) (page_size : Z) (fuel : nat) (out : list sdict) :
  fetch_all_topics fl w start_date end_date keyword page_size fuel = Some (Ok out) ->
  Forall has_base_keys out.
Proof.
  intros Hfetch. apply Forall_forall. intros r Hin. unfold fetch_all_topics in Hfetch.
  destruct (fetch_loop_sound _ _ _ _ _ _ _ _ _ _ Hfetch r Hin) as [[]|(p & t & _ & Ht)].
  destruct (process_topic_inv _ _ _ _ _ _ _ Ht) as (topic & ? & ? & ? & ? & -> & _).
  apply (process_topic_fields _ _ _ _ _ _ _ Ht).
Qed.

(** X13. Every record [fetch_all_topics] returns has the seven base keys,
    under every combination of flags and whatever the user endpoint
    returned; the exporter's direct subscripts of a fetched record cannot
    raise [KeyError]. *)
Theorem fetched_records_have_base_keys
    (fl : flags) (w : server) (start_date end_date : option datetime)
    (keyword : option string) (page_size : Z) (fuel : nat) (out : list sdict) :
  fetch_all_topics fl w start_date end_date keyword page_size fuel = Some (Ok out) ->
  Forall has_base_keys out /\
  forall categories r, In r out -> resolves categories r ->
    exists line row, topic_line categories r = Ok line /\ csv_row_of categories r = Ok row.
Proof.
  intros Hfetch. pose proof (fetch_all_topics_base_keys _ _ _ _ _ _ _ _ Hfetch) as HF.
  split; [exact HF|]. intros categories r Hin Hres.
  rewrite Forall_forall in HF. specialize (HF r Hin).
  destruct (topic_line_ok _ _ HF Hres) as (line & Hl).
  destruct (csv_row_of_ok _ _ HF Hres) as (row & Hr). eauto.
Qed.

Lemma fetched_records_witness :
  Forall has_base_keys (Sample.recs 0 ++ Sample.recs 1) /\
  forall categories r, In r (Sample.recs 0 ++ Sample.recs 1) -> resolves categories r ->
    exists line row, topic_line categories r = Ok line /\ csv_row_of categories r = Ok row.
Proof.
  apply (fetched_records_have_base_keys Sample.only_user_details Sample.forum
           None None None 30 3).
  reflexivity.
Defined.



(** X15. When the category request is refused, the run writes nothing and
    only reports the failure, however many topics the fetch returned. *)
Theorem failed_category_request_reports_failure
    (env : environ) (w : server) (fuel : nat)
    (start_date end_date : option datetime) (topics : list sdict) :
  status_code (get_categories w) <> 200 ->
  date_of (START_DATE env) = Ok start_date ->
  date_of (END_DATE env) = Ok end_date ->
  fetch_all_topics (flags_of env) w start_date end_date (KEYWORD env) 30 fuel =
    Some (Ok topics) ->
  main env w fuel = Some ReportedFailure.
Proof.
  intros Hstatus Hs He Hf. unfold main. rewrite Hs, He. cbn [bind].
  unfold list_all_categories.
  destruct (Z.eqb_spec (status_code (get_categories w)) 200); [contradiction|].
  rewrite Hf. destruct topics; reflexivity.
Qed.

Lemma failed_category_request_witness :
  main Sample.env_plain Cases.forum_no_categories 3 = Some ReportedFailure.
Proof.
  apply (failed_category_request_reports_failure Sample.env_plain Cases.forum_no_categories 3
           None None (Sample.recs 0 ++ Sample.recs 1)).
  - simpl. discriminate.
  - reflexivity.
  - reflexivity.
  - reflexivity.
Defined.

(** X16. A non-empty START_DATE that is not a date in the form
    YYYY-MM-DD stops the run with [ValueError] before any request is made:
    the outcome is the same against every server and no file is written. *)
Theorem bad_start_date_stops_the_run (env : environ) (w : server) (fuel : nat) (s : string) :
  START_DATE env = Some s -> s <> "" -> strptime_date s = None ->
  main env w fuel = Some (Crashed no_files ValueError).
Proof.
  intros Hs Hne Hbad. unfold main, date_of. rewrite Hs.
  destruct (String.eqb_spec s ""); [contradiction|]. rewrite Hbad. reflexivity.
Qed.

Lemma bad_start_date_witness :
  main Cases.env_bad_start Sample.forum 0 = Some (Crashed no_files ValueError).
Proof.
  apply (bad_start_date_stops_the_run Cases.env_bad_start Sample.forum 0 "01/01/2024").
  - reflexivity.
  - discriminate.
  - reflexivity.
Defined.

(** ** Python equality on keys *)

Lemma dt_eqb_eq (a b : datetime) : dt_eqb a b = true <-> a = b.
Proof.
  unfold dt_eqb. rewrite !andb_true_iff, !Z.eqb_eq.
  destruct a, b; simpl. split.
  - intros [[[[[[-> ->] ->] ->] ->] ->] ->]. reflexivity.
  - intros H. injection H as -> -> -> -> -> -> ->. repeat split.
Qed.

Lemma key_eqb_class (a b : value) :
  key_eqb a b = true <-> (key_class a = key_class b /\ key_class a <> None).
Proof.
  destruct a as [|x|x|x|x|x|x], b as [|y|y|y|y|y|y]; simpl;
    try (split; [discriminate|intros [H H']; try discriminate H; try congruence]).
  - split; [intros _; split; [reflexivity|discriminate]|reflexivity].
  - destruct x, y; simpl; split; try discriminate; try reflexivity;
      try (intros _; split; [reflexivity|discriminate]); intros [H _]; discriminate H.
  - rewrite Z.eqb_eq. split; [intros ->; split; [reflexivity|discriminate]|].
    intros [H _]. injection H as H. exact H.
  - rewrite Z.eqb_eq. split; [intros ->; split; [reflexivity|discriminate]|].
    intros [H _]. injection H as H. symmetry. exact H.
  - rewrite Z.eqb_eq. split; [intros ->; split; [reflexivity|discriminate]|].
    intros [H _]. injection H as H. exact H.
  - rewrite String.eqb_eq. split; [intros ->; split; [reflexivity|discriminate]|].
    intros [H _]. injection H as H. exact H.
  - rewrite dt_eqb_eq. split; [intros ->; split; [reflexivity|discriminate]|].
    intros [H _]. injection H as H. exact H.
Qed.

Lemma key_eqb_sym (a b : value) : key_eqb a b = key_eqb b a.
Proof.
  destruct (key_eqb a b) eqn:E1, (key_eqb b a) eqn:E2; try reflexivity.
  - apply key_eqb_class in E1. destruct E1 as [H1 H2].
    assert (key_eqb b a = true) by (apply key_eqb_class; split; congruence). congruence.
  - apply key_eqb_class in E2. destruct E2 as [H1 H2].
    assert (key_eqb a b = true) by (apply key_eqb_class; split; congruence). congruence.
Qed.

(** Equal keys compare alike with every third key. *)
Lemma key_eqb_congr (a b c : value) : key_eqb a b = true -> key_eqb a c = key_eqb b c.
Proof.
  intros Hab. apply key_eqb_class in Hab. destruct Hab as [H1 H2].
  destruct (key_eqb a c) eqn:E1, (key_eqb b c) eqn:E2; try reflexivity.
  - apply key_eqb_class in E1. destruct E1 as [H3 H4].
    assert (key_eqb b c = true) by (apply key_eqb_class; split; congruence). congruence.
  - apply key_eqb_class in E2. destruct E2 as [H3 H4].
    assert (key_eqb a c = true) by (apply key_eqb_class; split; congruence). congruence.
Qed.

Lemma kdict_lookup_congr {V} (a b : value) (d : kdict V) :
  key_eqb a b = true -> kdict_lookup a d = kdict_lookup b d.
Proof.
  intros Hab. induction d as [|[k v] d IH]; simpl; [reflexivity|].
  rewrite (key_eqb_congr a b k Hab). rewrite IH. reflexivity.
Qed.

Lemma kdict_lookup_set_other {V} (k k' : value) (v : V) (d : kdict V) :
  key_eqb k k' = false -> kdict_lookup k (kdict_set k' v d) = kdict_lookup k d.
Proof.
  intros Hne. induction d as [|[k0 v0] d IH]; simpl.
  - rewrite Hne. reflexivity.
  - destruct (key_eqb k' k0) eqn:E; simpl.
    + rewrite (key_eqb_sym k k0), <- (key_eqb_congr k' k0 k E), (key_eqb_sym k' k), Hne.
      reflexivity.
    + rewrite IH. reflexivity.
Qed.

Lemma kdict_lookup_none {V} (k : value) (d : kdict V) :
  kdict_lookup k d = None <-> (forall k' v', In (k', v') d -> key_eqb k k' = false).
Proof.
  induction d as [|[k0 v0] d IH]; simpl.
  - split; [intros _ ? ? []|reflexivity].
  - destruct (key_eqb k k0) eqn:E.
    + split; [discriminate|]. intros H. specialize (H k0 v0 (or_introl eq_refl)). congruence.
    + rewrite IH. split.
      * intros H k' v' [Heq|Hin]; [injection Heq as <- _; exact E|apply (H k' v' Hin)].
      * intros H k' v' Hin. apply (H k' v'). right. exact Hin.
Qed.

(** Assigning an absent key appends it. *)
Lemma kdict_set_fresh {V} (k : value) (v : V) (d : kdict V) :
  kdict_lookup k d = None -> kdict_set k v d = d ++ [(k, v)].
Proof.
  induction d as [|[k0 v0] d IH]; simpl; [reflexivity|].
  destruct (key_eqb k k0); [discriminate|]. intros H. rewrite (IH H). reflexivity.
Qed.

(** Assigning a present key replaces the value of the one entry it finds. *)
Lemma kdict_set_present {V} (k : value) (v old : V) (d : kdict V) :
  kdict_lookup k d = Some old ->
  exists pre k0 post,
    d = pre ++ (k0, old) :: post /\
    kdict_set k v d = pre ++ (k0, v) :: post /\
    key_eqb k k0 = true /\
    (forall k' v', In (k', v') pre -> key_eqb k k' = false).
Proof.
  induction d as [|[k0 v0] d IH]; simpl; [discriminate|].
  destruct (key_eqb k k0) eqn:E.
  - intros H. injection H as <-. exists [], k0, d. repeat split; auto. intros ? ? [].
  - intros H. destruct (IH H) as (pre & k1 & post & -> & Hset & Hk & Hpre).
    exists ((k0, v0) :: pre), k1, post. rewrite Hset. repeat split; auto.
    intros k' v' [Heq|Hin]; [injection Heq as <- _; exact E|apply (Hpre k' v' Hin)].
Qed.

(** ** The grouping loop: ids and totals *)

Lemma distinct_keys_snoc {V} (d : kdict V) (k : value) (v : V) :
  distinct_keys d -> kdict_lookup k d = None -> distinct_keys (d ++ [(k, v)]).
Proof.
  intros Hd Hnone. rewrite kdict_lookup_none in Hnone.
  induction d as [|[k0 v0] d IH]; simpl in *.
  - split; [intros ? ? []|exact I].
  - destruct Hd as [Hk0 Hd]. split.
    + intros k' v' Hin. apply in_app_or in Hin. destruct Hin as [Hin|[Heq|[]]].
      * apply (Hk0 k' v' Hin).
      * injection Heq as <- _. rewrite key_eqb_sym. apply (Hnone k0 v0). left. reflexivity.
    + apply IH; [exact Hd|]. intros k' v' Hin. apply (Hnone k' v'). right. exact Hin.
Qed.

Lemma distinct_keys_middle {V} (pre post : kdict V) (k0 : value) (v : V) :
  distinct_keys (pre ++ (k0, v) :: post) ->
  (forall k' v', In (k', v') post -> key_eqb k0 k' = false) /\
  (forall v', distinct_keys (pre ++ (k0, v') :: post)).
Proof.
  induction pre as [|[k1 v1] pre IH]; simpl.
  - intros [H1 H2]. split; [exact H1|]. intros v'. split; assumption.
  - intros [H1 H2]. destruct (IH H2) as [H3 H4]. split; [exact H3|].
    intros v'. split; [|apply H4].
    intros k' v'' Hin. apply in_app_or in Hin. destruct Hin as [Hin|[Heq|Hin]].
    + apply (H1 k' v''). apply in_or_app. left. exact Hin.
    + injection Heq as <- _. apply (H1 k0 v). apply in_or_app. right. left. reflexivity.
    + apply (H1 k' v''). apply in_or_app. right. right. exact Hin.
Qed.

Section GroupingStep.

Variables (name id : value) (n : Z).
Variables (g : kdict (list value)) (c : kdict Z).
Hypothesis Hname : hashable name = true.
Hypothesis Hcount : kdict_lookup name c = Some n.

(** Lines 173-174: the bucket for [name] is there afterwards. *)
Lemma ensure_bucket :
  distinct_keys g -> totals_match g c -> idle_at_zero g c ->
  let g1 := match kdict_lookup name g with
            | Some _ => g
            | None => kdict_set name [] g
            end in
  distinct_keys g1 /\ totals_match g1 c /\ idle_at_zero g1 c /\
  grouped_ids g1 = grouped_ids g /\
  exists ids, kdict_lookup name g1 = Some ids.
Proof.
  intros H1 H2 H3. destruct (kdict_lookup name g) as [ids|] eqn:E; cbn zeta.
  - repeat split; auto. exists ids. exact E.
  - rewrite (kdict_set_fresh _ _ _ E). split; [apply distinct_keys_snoc; assumption|].
    split; [|split; [|split]].
    + intros k ids Hin. apply in_app_or in Hin. destruct Hin as [Hin|[Heq|[]]].
      * apply (H2 k ids Hin).
      * injection Heq as <- <-. simpl. destruct (H3 name E) as [Hc|Hc]; congruence.
    + intros k Hk. apply H3. rewrite kdict_lookup_none in *.
      intros k' v' Hin. apply (Hk k' v'). apply in_or_app. left. exact Hin.
    + unfold grouped_ids. rewrite map_app, concat_app. simpl. rewrite app_nil_r. reflexivity.
    + exists []. rewrite <- (kdict_set_fresh _ _ _ E).
      apply kdict_lookup_set_same. apply key_eqb_refl. exact Hname.
Qed.

(** Lines 175-176: the id joins its group and the counter follows. *)
Lemma append_and_count (ids : list value) :
  kdict_lookup name g = Some ids ->
  distinct_keys g -> totals_match g c -> idle_at_zero g c ->
  let g2 := kdict_set name (ids ++ [id]) g in
  let c2 := kdict_set name (n + 1) c in
  distinct_keys g2 /\ totals_match g2 c2 /\ idle_at_zero g2 c2 /\
  Permutation (grouped_ids g2) (grouped_ids g ++ [id]).
Proof.
  intros Hl H1 H2 H3. cbn zeta.
  destruct (kdict_set_present name (ids ++ [id]) ids g Hl)
    as (pre & k0 & post & Hg & Hset & Hk0 & Hpre).
  rewrite Hset. subst g.
  destruct (distinct_keys_middle _ _ _ _ H1) as [Hpost Hdist].
  assert (Hn : n = Z.of_nat (List.length ids)).
  { assert (Hk : kdict_lookup k0 c = Some (Z.of_nat (List.length ids))).
    { apply (H2 k0 ids). apply in_or_app. right. left. reflexivity. }
    rewrite <- (kdict_lookup_congr name k0 c Hk0) in Hk. congruence. }
  assert (Hother : forall k, key_eqb k0 k = false -> key_eqb k name = false).
  { intros k Hk. rewrite key_eqb_sym, (key_eqb_congr name k0 k Hk0). exact Hk. }
  split; [apply Hdist|]. split; [|split].
  - intros k l Hin. apply in_app_or in Hin. destruct Hin as [Hin|[Heq|Hin]].
    + rewrite kdict_lookup_set_other.
      * apply (H2 k l). apply in_or_app. left. exact Hin.
      * rewrite key_eqb_sym. apply (Hpre k l Hin).
    + injection Heq as <- <-.
      rewrite <- (kdict_lookup_congr name k0 _ Hk0).
      rewrite kdict_lookup_set_same by (apply key_eqb_refl; exact Hname).
      rewrite Hn, length_app. simpl. f_equal. lia.
    + rewrite kdict_lookup_set_other.
      * apply (H2 k l). apply in_or_app. right. right. exact Hin.
      * apply Hother. apply (Hpost k l Hin).
  - intros k Hk. rewrite kdict_lookup_none in Hk.
    assert (Hk0' : key_eqb k k0 = false).
    { apply (Hk k0 (ids ++ [id])). apply in_or_app. right. left. reflexivity. }
    rewrite kdict_lookup_set_other.
    + apply H3. apply kdict_lookup_none. intros k' v' Hin.
      apply in_app_or in Hin. destruct Hin as [Hin|[Heq|Hin]].
      * apply (Hk k' v'). apply in_or_app. left. exact Hin.
      * injection Heq as <- _. exact Hk0'.
      * apply (Hk k' v'). apply in_or_app. right. right. exact Hin.
    + apply Hother. rewrite key_eqb_sym. exact Hk0'.
  - unfold grouped_ids. rewrite !map_app, !concat_app. simpl.
    rewrite <- !app_assoc. apply Permutation_app_head. apply Permutation_app_head.
    apply Permutation_app_comm.
Qed.

End GroupingStep.

Lemma group_topics_invariant (categories : cdict) (topics : list sdict) :
  forall g c g' c',
    group_topics categories topics g c = Ok (g', c') ->
    distinct_keys g -> totals_match g c -> idle_at_zero g c ->
    distinct_keys g' /\ totals_match g' c' /\
    Permutation (grouped_ids g') (grouped_ids g ++ map topic_id topics).
Proof.
  induction topics as [|t rest IH]; intros g c g' c'; simpl.
  - intros H H1 H2 H3. injection H as <- <-. rewrite app_nil_r. auto.
  - destruct (category_name_of categories t) as [name|]; simpl; [|discriminate].
    destruct (hashable name) eqn:Hname; [|discriminate].
    unfold dict_index at 1.
    destruct (dict_lookup "id" t) as [id|] eqn:Eid; simpl; [|discriminate].
    destruct (kdict_lookup name c) as [n|] eqn:En; [|discriminate].
    intros H H1 H2 H3.
    destruct (ensure_bucket name n g c Hname En H1 H2 H3)
      as (G1 & G2 & G3 & Gids & ids & Hids).
    revert H. rewrite Hids. intros H.
    destruct (append_and_count name id n _ c Hname En ids Hids G1 G2 G3)
      as (K1 & K2 & K3 & Kperm).
    destruct (IH _ _ _ _ H K1 K2 K3) as (R1 & R2 & R3).
    split; [exact R1|]. split; [exact R2|].
    eapply Permutation_trans; [exact R3|].
    rewrite Gids in Kperm.
    replace (topic_id t) with id by (unfold topic_id, dict_get; rewrite Eid; reflexivity).
    change (id :: map topic_id rest) with ([id] ++ map topic_id rest).
    rewrite app_assoc. apply Permutation_app_tail. exact Kperm.
Qed.

Lemma initial_count_zero (categories : cdict) :
  forall acc c, initial_count categories acc = Ok c ->
    (forall k, kdict_lookup k acc = None \/ kdict_lookup k acc = Some 0) ->
    forall k, kdict_lookup k c = None \/ kdict_lookup k c = Some 0.
Proof.
  induction categories as [|[id name] rest IH]; intros acc c; simpl.
  - intros H. injection H as <-. auto.
  - destruct (hashable name) eqn:Hname; [|discriminate].
    intros H Hacc. apply (IH _ _ H). intros k.
    destruct (key_eqb k name) eqn:E.
    + right. rewrite (kdict_lookup_congr k name _ E).
      apply kdict_lookup_set_same. apply key_eqb_refl. exact Hname.
    + rewrite kdict_lookup_set_other by exact E. apply Hacc.
Qed.

Lemma write_groups_totals (g : kdict (list value)) (c : kdict Z) :
  totals_match g c ->
  forall out, write_groups g c out = (out ++ flat_map group_block g, Ok tt).
Proof.
  induction g as [|[k ids] g IH]; intros Hm out; simpl.
  - rewrite app_nil_r. reflexivity.
  - rewrite (Hm k ids (or_introl eq_refl)).
    rewrite IH by (intros k' ids' H; apply (Hm k' ids'); right; exact H).
    rewrite <- app_assoc. reflexivity.
Qed.

Lemma sum_of_totals_length (g : kdict (list value)) (c : kdict Z) :
  totals_match g c -> sum_of_totals g c = Z.of_nat (List.length (grouped_ids g)).
Proof.
  induction g as [|[k ids] g IH]; intros Hm; simpl; [reflexivity|].
  rewrite (Hm k ids (or_introl eq_refl)).
  rewrite IH by (intros k' ids' H; apply (Hm k' ids'); right; exact H).
  unfold grouped_ids. simpl. rewrite length_app. lia.
Qed.

(** X17. When the grouping loop goes through, the ids listed in the groups
    are the topics' ids, each as often as it occurs among the topics; every
    group's total is the number of ids listed for it, so that the grouped
    section of the report is one block per group with that total, and the
    totals add up to the number of topics. *)
Theorem groups_partition_the_topics
    (categories : cdict) (topics : list sdict)
    (c0 : kdict Z) (g : kdict (list value)) (c : kdict Z) :
  initial_count categories [] = Ok c0 ->
  group_topics categories topics [] c0 = Ok (g, c) ->
  Permutation (grouped_ids g) (map topic_id topics) /\
  totals_match g c /\
  sum_of_totals g c = Z.of_nat (List.length topics) /\
  forall out, write_groups g c out = (out ++ flat_map group_block g, Ok tt).
Proof.
  intros Hc0 Hg.
  destruct (group_topics_invariant categories topics [] c0 g c Hg) as (H1 & H2 & H3).
  - exact I.
  - intros ? ? [].
  - intros k _. apply (initial_count_zero categories [] c0 Hc0). intros k'. left. reflexivity.
  - simpl in H3. split; [exact H3|]. split; [exact H2|]. split.
    + rewrite (sum_of_totals_length _ _ H2), (Permutation_length H3), length_map.
      reflexivity.
    + apply write_groups_totals. exact H2.
Qed.

Lemma groups_partition_witness :
  exists g c,
    group_topics [(VInt 1, VStr "General")] (Sample.recs 0 ++ Sample.recs 1) []
      [(VStr "General", 0)] = Ok (g, c) /\
    Permutation (grouped_ids g) [VInt 101; VInt 102; VInt 103] /\
    sum_of_totals g c = 3.
Proof.
  eexists. eexists. split; [reflexivity|].
  destruct (groups_partition_the_topics [(VInt 1, VStr "General")]
              (Sample.recs 0 ++ Sample.recs 1) [(VStr "General", 0)] _ _ eq_refl eq_refl)
    as (H1 & _ & H3 & _).
  split; [exact H1|exact H3].
Defined.

(** ** The category map *)

Lemma category_comprehension_app (pre post : list value) :
  forall acc,
    category_comprehension (pre ++ post) acc =
    (acc' <- category_comprehension pre acc ;; category_comprehension post acc').
Proof.
  induction pre as [|c pre IH]; intros acc; simpl; [reflexivity|].
  destruct (subscript c "id") as [id|]; simpl; [|reflexivity].
  destruct (subscript c "name") as [name|]; simpl; [|reflexivity].
  destruct (hashable id); [apply IH|reflexivity].
Qed.

(** An entry survives the categories whose ids differ from its key. *)
Lemma category_comprehension_keeps (items : list value) :
  forall acc d k v,
    category_comprehension items acc = Ok d ->
    kdict_lookup k acc = Some v ->
    (forall c id, In c items -> subscript c "id" = Ok id -> key_eqb k id = false) ->
    kdict_lookup k d = Some v.
Proof.
  induction items as [|c items IH]; intros acc d k v; simpl.
  - intros H. injection H as <-. auto.
  - destruct (subscript c "id") as [id|] eqn:Eid; simpl; [|discriminate].
    destruct (subscript c "name") as [name|]; simpl; [|discriminate].
    destruct (hashable id); [|discriminate].
    intros H Hk Hother. apply (IH _ _ _ _ H).
    + rewrite kdict_lookup_set_other; [exact Hk|]. apply (Hother c id); auto.
    + intros c' id' Hin. apply (Hother c' id'). right. exact Hin.
Qed.

(** X18. In the map [list_all_categories] builds from a successful
    response, the id of a listed category resolves to that category's name,
    provided no category listed after it has an equal id (of several entries
    with one id, the last gives the name). *)
Theorem listed_category_resolves
    (w : server) (categories : cdict) (pre post : list value) (c id name : value) :
  categories_listed w (pre ++ c :: post) ->
  list_all_categories w = Ok categories ->
  subscript c "id" = Ok id ->
  subscript c "name" = Ok name ->
  (forall c' id', In c' post -> subscript c' "id" = Ok id' -> key_eqb id id' = false) ->
  kdict_lookup id categories = Some name.
Proof.
  intros (Hs & body & cl & Hj & Hcl & Hitems) Hlist Hid Hn Hlast.
  unfold list_all_categories in Hlist. rewrite Hs, Hj in Hlist. simpl in Hlist.
  rewrite Hcl in Hlist. simpl in Hlist. rewrite Hitems in Hlist. simpl in Hlist.
  rewrite category_comprehension_app in Hlist.
  destruct (category_comprehension pre []) as [acc|]; simpl in Hlist; [|discriminate].
  rewrite Hid, Hn in Hlist. simpl in Hlist.
  destruct (hashable id) eqn:Hh; [|discriminate].
  apply (category_comprehension_keeps _ _ _ _ _ Hlist); [|exact Hlast].
  apply kdict_lookup_set_same. apply key_eqb_refl. exact Hh.
Qed.

Lemma listed_category_witness :
  kdict_lookup (VInt 1) [(VInt 1, VStr "General")] = Some (VStr "General").
Proof.
  apply (listed_category_resolves Sample.forum [(VInt 1, VStr "General")] [] []
           (VDict [("id", VInt 1); ("name", VStr "General")]) (VInt 1) (VStr "General")).
  - split; [reflexivity|]. eexists. eexists. repeat split; reflexivity.
  - reflexivity.
  - reflexivity.
  - reflexivity.
  - intros c' id' [].
Defined.

(** ** What the fetch does not consult *)

Section ServerFacts.

Variable fl : flags.
Variables w w' : server.
Variables start_date end_date : option datetime.
Variable keyword : option string.
Variable page_size : Z.

Hypothesis Hoff : FETCH_USER_DETAILS fl = false.
Hypothesis Hsame : forall p, get_latest w p page_size = get_latest w' p page_size.

Lemma process_topic_without_user_details (t : value) :
  process_topic fl w start_date end_date keyword t =
  process_topic fl w' start_date end_date keyword t.
Proof.
  destruct t as [| | | | |topic|]; try reflexivity. simpl.
  destruct (dict_index topic "created_at") as [c|]; simpl; [|reflexivity].
  destruct (parse_created_at c) as [d|]; simpl; [|reflexivity].
  destruct (before_start start_date d); [reflexivity|].
  destruct (after_end end_date d); [reflexivity|].
  destruct (keyword_misses keyword topic) as [[|]|]; simpl; try reflexivity.
  destruct (base_record topic d) as [b|]; simpl; [|reflexivity].
  rewrite !merge_user_details_off by exact Hoff. reflexivity.
Qed.

Lemma process_page_without_user_details (items : list value) :
  forall acc,
    process_page fl w start_date end_date keyword items acc =
    process_page fl w' start_date end_date keyword items acc.
Proof.
  induction items as [|t items IH]; intros acc; simpl; [reflexivity|].
  rewrite process_topic_without_user_details.
  destruct (process_topic fl w' start_date end_date keyword t) as [[r|]|]; simpl; auto.
Qed.

Lemma fetch_loop_without_user_details :
  forall fuel p acc,
    fetch_loop fl w start_date end_date keyword page_size fuel p acc =
    fetch_loop fl w' start_date end_date keyword page_size fuel p acc.
Proof.
  induction fuel as [|fuel IH]; intros p acc; simpl; [reflexivity|].
  rewrite Hsame.
  destruct (negb (status_code (get_latest w' p page_size) =? 200)); [reflexivity|].
  destruct (bind (json (get_latest w' p page_size)) _) as [tl|]; [|reflexivity].
  destruct (negb (truthy tl)); [reflexivity|].
  destruct (iterate tl) as [items|]; simpl; [|reflexivity].
  rewrite process_page_without_user_details.
  destruct (process_page fl w' start_date end_date keyword items acc); auto.
Qed.

End ServerFacts.

(** X19. With [FETCH_USER_DETAILS] off the user endpoint is not consulted:
    two servers with the same topic listing give the same result, whatever
    their user (and category) endpoints answer. *)
Theorem user_endpoint_unused_when_flag_off
    (fl : flags) (w w' : server) (start_date end_date : option datetime)
    (keyword : option string) (page_size : Z) (fuel : nat) :
  FETCH_USER_DETAILS fl = false ->
  (forall p, get_latest w p page_size = get_latest w' p page_size) ->
  fetch_all_topics fl w start_date end_date keyword page_size fuel =
  fetch_all_topics fl w' start_date end_date keyword page_size fuel.
Proof.
  intros Hoff Hsame. unfold fetch_all_topics.
  apply fetch_loop_without_user_details; assumption.
Qed.

Lemma user_endpoint_unused_witness :
  fetch_all_topics Sample.only_description Sample.forum None None None 30 3 =
  fetch_all_topics Sample.only_description Cases.forum_odd_users None None None 30 3.
Proof.
  apply (user_endpoint_unused_when_flag_off Sample.only_description Sample.forum
           Cases.forum_odd_users None None None 30 3).
  - reflexivity.
  - intros p. reflexivity.
Defined.

(** ** Without filters *)

(** X20. Without dates and without a keyword no topic is skipped: a page
    that is processed normally adds exactly one record per topic. *)
Theorem no_filters_keep_every_topic
    (fl : flags) (w : server) (items : list value) (topics out : list sdict) :
  process_page fl w None None None items topics = Ok out ->
  List.length out = (List.length topics + List.length items)%nat.
Proof.
  revert topics out. induction items as [|t items IH]; intros topics out; simpl.
  - intros H. injection H as <-. lia.
  - destruct (process_topic fl w None None None t) as [[r|]|] eqn:Et; simpl;
      try discriminate.
    + intros H. rewrite (IH _ _ H), length_app. simpl. lia.
    + exfalso. destruct t as [| | | | |topic|]; simpl in Et; try discriminate.
      destruct (dict_index topic "created_at") as [c|]; simpl in Et; [|discriminate].
      destruct (parse_created_at c) as [d|]; simpl in Et; [|discriminate].
      destruct (base_record topic d) as [b|]; simpl in Et; [|discriminate].
      destruct (merge_user_details fl w topic b); simpl in Et; discriminate.
Qed.

Lemma no_filters_witness :
  List.length (Sample.recs 0) = (List.length (@nil sdict) + List.length (Sample.items 0))%nat.
Proof.
  apply (no_filters_keep_every_topic Sample.no_flags Sample.forum (Sample.items 0) []).
  reflexivity.
Defined.

(** ** The filters and the gate, as far as they hold *)



(** X22. A run that reports an export has written all three files, the
    JSON one holding the topics fetched under the bounds parsed from
    START_DATE and END_DATE, and it had a non-empty topic list and a
    non-empty category map. *)
Theorem export_only_from_nonempty_inputs
    (env : environ) (w : server) (fuel : nat) (f : files) :
  main env w fuel = Some (Exported f) ->
  exists start_date end_date categories topics txt csv,
    date_of (START_DATE env) = Ok start_date /\
    date_of (END_DATE env) = Ok end_date /\
    list_all_categories w = Ok categories /\
    fetch_all_topics (flags_of env) w start_date end_date (KEYWORD env) 30 fuel =
      Some (Ok topics) /\
    topics <> [] /\ categories <> [] /\
    f = mkfiles (Some txt) (Some csv) (Some topics).
Proof.
  unfold main.
  destruct (date_of (START_DATE env)) as [sd|] eqn:Es; cbn [bind]; [|discriminate].
  destruct (date_of (END_DATE env)) as [ed|] eqn:Ee; cbn [bind]; [|discriminate].
  destruct (list_all_categories w) as [categories|] eqn:Ec; [|discriminate].
  destruct (fetch_all_topics _ _ _ _ _ _ _) as [[topics|]|] eqn:Ef; try discriminate.
  destruct topics as [|t topics]; [discriminate|].
  destruct categories as [|c categories]; [discriminate|].
  destruct (save_topics_and_categories _ _ _) as [f' [u|]] eqn:Esave; [|discriminate].
  intros H. injection H as <-.
  destruct (save_ok_writes_all_files _ _ _ _ _ Esave) as (txt & csv & ->).
  exists sd, ed, (c :: categories), (t :: topics), txt, csv.
  repeat split; try reflexivity; try discriminate. exact Ef.
Qed.

Lemma export_only_from_nonempty_witness :
  exists start_date end_date categories topics txt csv,
    date_of (START_DATE Sample.env_plain) = Ok start_date /\
    date_of (END_DATE Sample.env_plain) = Ok end_date /\
    list_all_categories Sample.forum = Ok categories /\
    fetch_all_topics (flags_of Sample.env_plain) Sample.forum start_date end_date
      (KEYWORD Sample.env_plain) 30 3 = Some (Ok topics) /\
    topics <> [] /\ categories <> [] /\
    fst (save_topics_and_categories Sample.no_flags [(VInt 1, VStr "General")]
           (Sample.recs 0 ++ Sample.recs 1)) = mkfiles (Some txt) (Some csv) (Some topics).
Proof.
  apply (export_only_from_nonempty_inputs Sample.env_plain Sample.forum 3
           (fst (save_topics_and_categories Sample.no_flags [(VInt 1, VStr "General")]
                   (Sample.recs 0 ++ Sample.recs 1)))).
  reflexivity.
Defined.

(** X23. When the fetch returns no topic, or the category map is empty,
    the exporter is not called: the run only reports the failure and no file
    is written. *)
Theorem empty_inputs_report_failure
    (env : environ) (w : server) (fuel : nat)
    (start_date end_date : option datetime) (categories : cdict) (topics : list sdict) :
  date_of (START_DATE env) = Ok start_date ->
  date_of (END_DATE env) = Ok end_date ->
  list_all_categories w = Ok categories ->
  fetch_all_topics (flags_of env) w start_date end_date (KEYWORD env) 30 fuel =
    Some (Ok topics) ->
  topics = [] \/ categories = [] ->
  main env w fuel = Some ReportedFailure.
Proof. apply main_reports_failure. Qed.

Lemma empty_inputs_witness :
  main Sample.env_plain Cases.forum_no_topic_list 1 = Some ReportedFailure.
Proof.
  apply (empty_inputs_report_failure Sample.env_plain Cases.forum_no_topic_list 1
           None None [(VInt 1, VStr "General")] []).
  - reflexivity.
  - reflexivity.
  - reflexivity.
  - reflexivity.
  - left. reflexivity.
Defined.
